(** * The UK housing agent and its OpenAI-compatible adapter

    A shallow embedding of
    - [graphs/uk_housing_agent/graph.py] and [state.py]: the intent
      classifier, the dispatch function and the routing graph;
    - [src/agent_server/api/openai_compat.py]: the HTTP adapter.

    Python strings are sequences of Unicode code points.  The language
    models, the reducer of the message history, the graph registry,
    [uuid4], the clock and pydantic's renderings and validation errors are
    collaborators of the code: they appear as variables of the sections
    below. *)

From Stdlib Require Import List String Ascii NArith ZArith Bool Lia.
Import ListNotations.

Set Implicit Arguments.

(* ====================================================================== *)
(** * Python strings *)
(* ====================================================================== *)

Module PyStr.

Local Open Scope N_scope.

(** A [str] is a list of code points. *)
Definition pystr := list N.

(** The code points of an ASCII literal. *)
Definition py (s : string) : pystr := map N_of_ascii (list_ascii_of_string s).

Fixpoint eqb (a b : pystr) : bool :=
  match a, b with
  | [], [] => true
  | x :: a', y :: b' => N.eqb x y && eqb a' b'
  | _, _ => false
  end.

(** [x in xs] on a collection of strings. *)
Definition mem (x : pystr) (xs : list pystr) : bool := existsb (eqb x) xs.

(** [dict.get(key, default)] on a dictionary with string keys, kept as
    the list of its items. *)
Fixpoint dict_get {V : Type} (d : list (pystr * V)) (key : pystr) (default : V) : V :=
  match d with
  | [] => default
  | (k, v) :: d' => if eqb k key then v else dict_get d' key default
  end.

(** [str.isspace] of one code point: the characters [str.strip()]
    removes. *)
Definition isspace (c : N) : bool :=
  ((9 <=? c) && (c <=? 13)) || ((28 <=? c) && (c <=? 32))
  || (c =? 133) || (c =? 160) || (c =? 5760)
  || ((8192 <=? c) && (c <=? 8202))
  || (c =? 8232) || (c =? 8233) || (c =? 8239) || (c =? 8287)
  || (c =? 12288).

Fixpoint lstrip (s : pystr) : pystr :=
  match s with
  | [] => []
  | c :: s' => if isspace c then lstrip s' else s
  end.

Definition rstrip (s : pystr) : pystr := rev (lstrip (rev s)).

(** [s.strip()] *)
Definition strip (s : pystr) : pystr := rstrip (lstrip s).

Section Lower.

(** The lower-case mapping of the Unicode database for a code point
    outside ASCII, given the code points before it (nearest first) and
    after it; it may yield several code points. *)
Variable unicode_lower : list N -> N -> list N -> list N.

Definition lower_at (before : list N) (c : N) (after : list N) : list N :=
  if (65 <=? c) && (c <=? 90) then [c + 32]
  else if c <? 128 then [c]
  else unicode_lower before c after.

Fixpoint lower_from (before s : list N) : pystr :=
  match s with
  | [] => []
  | c :: s' => lower_at before c s' ++ lower_from (c :: before) s'
  end.

(** [s.lower()] *)
Definition lower (s : pystr) : pystr := lower_from [] s.

End Lower.

Definition is_ascii (s : pystr) : bool := forallb (fun c => c <? 128) s.

(** Lower-casing of an ASCII code point. *)
Definition ascii_lower (c : N) : N :=
  if (65 <=? c) && (c <=? 90) then c + 32 else c.

End PyStr.

Import PyStr.

(* ====================================================================== *)
(** * graphs/uk_housing_agent: state, nodes and the routing graph *)
(* ====================================================================== *)

Module HousingGraph.

(** ** Messages (langchain_core.messages) *)

Record ToolCall := { tool_name : pystr; tool_args : list (pystr * pystr) }.

(** The content of a message: a string, or a list of content blocks
    (each block kept as its text). *)
Inductive Content :=
| Text (s : pystr)
| Blocks (blocks : list pystr).

Inductive BaseMessage :=
| SystemMessage (content : Content)
| HumanMessage (content : Content)
| AIMessage (content : Content) (tool_calls : list ToolCall).

Definition content (m : BaseMessage) : Content :=
  match m with
  | SystemMessage c | HumanMessage c | AIMessage c _ => c
  end.

(** ** state.py *)

(** [State] as an object: [messages], [issue_type: Optional[str] = None],
    [current_agent: Optional[str] = None]. *)
Record StateObj := {
  messages : list BaseMessage;
  issue_type : option pystr;
  current_agent : option pystr }.

(** [State] as a dict: each key may be missing, and an [Optional] key that
    is present may hold [None].  The partial dicts the nodes return have
    the same shape. *)
Record StateDict := {
  d_messages : option (list BaseMessage);
  d_issue_type : option (option pystr);
  d_current_agent : option (option pystr) }.

Inductive State :=
| AsDict (d : StateDict)
| AsObject (o : StateObj).

(** [state.get("messages", []) if isinstance(state, dict) else state.messages] *)
Definition state_messages (state : State) : list BaseMessage :=
  match state with
  | AsDict d => match d_messages d with Some ms => ms | None => [] end
  | AsObject o => messages o
  end.

(** A chat model bound to its configuration: [await model.ainvoke(msgs)]
    returns the reply, or [None] when the provider call raises. *)
Definition ChatModel := list BaseMessage -> option BaseMessage.

(** ** graph.py: the nodes *)

Definition intent_prompt : pystr := py
"Classify the user message into EXACTLY ONE category:
- heating: boiler errors, radiator issues, temperature, heating problems
- damp: damp, mold, mould, condensation, moisture, wet issues
- repairs: broken taps/pipes, cracked windows, electrical faults, doors, brickwork, roofing, painting
- general: other housing issues

Answer with ONLY the category name in lowercase, nothing else.".

Definition valid_types : list pystr :=
  [py "heating"; py "damp"; py "repairs"; py "general"].

Definition heating_prompt : pystr := py
"You are a heating system expert. Help users with boiler errors, 
radiator issues, temperature problems, and heating maintenance. Provide practical, 
safety-conscious advice.".

Definition damp_prompt : pystr := py
"You are a damp and moisture specialist. Help users with mold, 
condensation, moisture, and dampness problems. Provide practical solutions and prevention tips.".

Definition repairs_prompt : pystr := py
"You are a repairs and maintenance expert. Help users with plumbing, 
electrical, structural issues, broken fixtures, and general home maintenance. 
Provide practical advice and safety warnings when needed.".

Definition general_prompt : pystr := py
"You are a general housing advisor. Help users with any housing-related 
questions that don't fit into heating, damp, or repairs categories. Provide practical advice 
and guidance.".

Section Nodes.

Variable unicode_lower : list N -> N -> list N -> list N.

(** [get_intent_llm(runtime)]: the model at temperature 0, no tools. *)
Variable intent_llm : ChatModel.

(** [get_agent_llm(runtime).bind_tools(TOOLS)] *)
Variable agent_llm : ChatModel.

Definition detect_intent (state : State) : option StateDict :=
  let messages := state_messages state in
  match intent_llm (SystemMessage (Text intent_prompt) :: messages) with
  | None => None
  | Some response =>
      match content response with
      | Blocks _ =>
          (* response.content.strip(): a list has no attribute strip *)
          None
      | Text reply =>
          let detected := lower unicode_lower (strip reply) in
          let issue_type :=
            if mem detected valid_types then detected else py "general" in
          Some {| d_messages := None;
                  d_issue_type := Some (Some issue_type);
                  d_current_agent := None |}
      end
  end.

(** The common shape of the four specialist nodes. *)
Definition agent_node (system_prompt : pystr) (state : State) : option StateDict :=
  let messages := state_messages state in
  match agent_llm (SystemMessage (Text system_prompt) :: messages) with
  | None => None
  | Some response =>
      Some {| d_messages := Some [response];
              d_issue_type := None;
              d_current_agent := None |}
  end.

Definition heating_agent : State -> option StateDict := agent_node heating_prompt.
Definition damp_agent : State -> option StateDict := agent_node damp_prompt.
Definition repairs_agent : State -> option StateDict := agent_node repairs_prompt.
Definition general_agent : State -> option StateDict := agent_node general_prompt.

End Nodes.

(** ** graph.py: dispatch *)

Definition routing : list (pystr * pystr) :=
  [ (py "heating", py "heating_agent");
    (py "damp", py "damp_agent");
    (py "repairs", py "repairs_agent");
    (py "general", py "general_agent") ].

(** [routing.get(issue_type, "general_agent")] where [issue_type] may be
    [None], which is no key of [routing]. *)
Definition routing_get (issue_type : option pystr) : pystr :=
  match issue_type with
  | Some k => dict_get routing k (py "general_agent")
  | None => py "general_agent"
  end.

Definition route_to_agent (state : State) : pystr :=
  let issue_type :=
    match state with
    | AsDict d =>
        (* state.get("issue_type", "general") *)
        match d_issue_type d with
        | Some v => v
        | None => Some (py "general")
        end
    | AsObject o =>
        (* state.issue_type or "general": None and the empty string are falsy *)
        match issue_type o with
        | Some [] | None => Some (py "general")
        | Some v => Some v
        end
    end in
  routing_get issue_type.

(** The issue type a state carries: the value under [issue_type], [None]
    when the key is missing or holds [None]. *)
Definition carried_issue_type (state : State) : option pystr :=
  match state with
  | AsDict d => match d_issue_type d with Some v => v | None => None end
  | AsObject o => issue_type o
  end.

Definition specialists : list pystr :=
  [py "heating_agent"; py "damp_agent"; py "repairs_agent"; py "general_agent"].

(** ** graph.py: the graph *)

Definition START : pystr := py "__start__".
Definition END : pystr := py "__end__".

Record StateGraph := {
  nodes : list (pystr * (State -> option StateDict));
  edges : list (pystr * pystr);
  branches : list (pystr * (State -> pystr)) }.

Definition new_graph : StateGraph :=
  {| nodes := []; edges := []; branches := [] |}.

Definition add_node (name : pystr) (action : State -> option StateDict)
    (b : StateGraph) : StateGraph :=
  {| nodes := nodes b ++ [(name, action)]; edges := edges b; branches := branches b |}.

Definition add_edge (start_key end_key : pystr) (b : StateGraph) : StateGraph :=
  {| nodes := nodes b; edges := edges b ++ [(start_key, end_key)]; branches := branches b |}.

Definition add_conditional_edges (source : pystr) (path : State -> pystr)
    (b : StateGraph) : StateGraph :=
  {| nodes := nodes b; edges := edges b; branches := branches b ++ [(source, path)] |}.

Section Graph.

Variable unicode_lower : list N -> N -> list N -> list N.
Variable intent_llm : ChatModel.
Variable agent_llm : ChatModel.

Definition builder : StateGraph :=
  let b := new_graph in
  let b := add_node (py "detect_intent") (detect_intent unicode_lower intent_llm) b in
  let b := add_node (py "heating_agent") (heating_agent agent_llm) b in
  let b := add_node (py "damp_agent") (damp_agent agent_llm) b in
  let b := add_node (py "repairs_agent") (repairs_agent agent_llm) b in
  let b := add_node (py "general_agent") (general_agent agent_llm) b in
  let b := add_edge (py "__start__") (py "detect_intent") b in
  let b := add_conditional_edges (py "detect_intent") route_to_agent b in
  let b := add_edge (py "heating_agent") END b in
  let b := add_edge (py "damp_agent") END b in
  let b := add_edge (py "repairs_agent") END b in
  let b := add_edge (py "general_agent") END b in
  b.

(** [graph = builder.compile()] *)
Definition graph : StateGraph := builder.

End Graph.

(** ** The graph runtime

    The runtime is LangGraph's.  For a graph in which a node has one
    outgoing edge or one branch, a run starts at [__start__], moves along
    the edge (or to the node the branch function names), calls that node
    on the current state, merges the dict it returns and goes on until it
    reaches [__end__]; an exception raised by a node ends the run. *)

Fixpoint lookup {V : Type} (d : list (pystr * V)) (key : pystr) : option V :=
  match d with
  | [] => None
  | (k, v) :: d' => if PyStr.eqb k key then Some v else lookup d' key
  end.

Definition successor (g : StateGraph) (node : pystr) (s : StateDict) : option pystr :=
  match lookup (edges g) node with
  | Some target => Some target
  | None =>
      match lookup (branches g) node with
      | Some path => Some (path (AsDict s))
      | None => None
      end
  end.

(** The outcome of a run, with the nodes that were called, in order. *)
Inductive Run :=
| Finished (trace : list pystr) (final : StateDict)
| Raised (trace : list pystr)
| OutOfFuel (trace : list pystr).

Definition trace_of (r : Run) : list pystr :=
  match r with Finished t _ | Raised t | OutOfFuel t => t end.

(** A state in which no key has been written. *)
Definition empty_state : StateDict :=
  {| d_messages := None; d_issue_type := None; d_current_agent := None |}.

(** The graph is built with [input_schema=InputState]: of the dict a
    caller passes, only the keys of [InputState] are read, which is
    [messages] alone. *)
Definition input_state (input : StateDict) : StateDict :=
  {| d_messages := d_messages input; d_issue_type := None; d_current_agent := None |}.

Section Runtime.

(** [add_messages], the reducer that [MessagesState] gives the key
    [messages]: from the history and the messages written, the merged
    history.  It is LangGraph's: it appends a message whose id is not in
    the history and puts a message whose id is there in the place of the
    old one. *)
Variable add_messages : list BaseMessage -> list BaseMessage -> list BaseMessage.

(** Merging a dict of writes into the state: [messages] goes through its
    reducer; the other keys are overwritten. *)
Definition apply_update (s u : StateDict) : StateDict :=
  {| d_messages :=
       match d_messages u with
       | Some new => Some (add_messages (state_messages (AsDict s)) new)
       | None => d_messages s
       end;
     d_issue_type :=
       match d_issue_type u with Some v => Some v | None => d_issue_type s end;
     d_current_agent :=
       match d_current_agent u with Some v => Some v | None => d_current_agent s end |}.

Fixpoint run_from (fuel : nat) (g : StateGraph) (node : pystr) (s : StateDict)
    (trace : list pystr) : Run :=
  match fuel with
  | O => OutOfFuel trace
  | S fuel' =>
      match successor g node s with
      | None => Finished trace s
      | Some target =>
          if PyStr.eqb target END then Finished trace s
          else
            match lookup (nodes g) target with
            | None => Raised trace
            | Some action =>
                match action (AsDict s) with
                | None => Raised (trace ++ [target])
                | Some update =>
                    run_from fuel' g target (apply_update s update) (trace ++ [target])
                end
            end
      end
  end.

(** A run on a thread whose saved state is [saved]: the input is written
    into the saved state and the run starts from there. *)
Definition resume (fuel : nat) (g : StateGraph) (saved input : StateDict) : Run :=
  run_from fuel g START (apply_update saved (input_state input)) [].

(** [graph.invoke(input)] on a new thread. *)
Definition invoke (fuel : nat) (g : StateGraph) (input : StateDict) : Run :=
  resume fuel g empty_state input.

End Runtime.

(** How often a node was called in a run. *)
Definition calls_of (name : pystr) (trace : list pystr) : nat :=
  List.length (filter (PyStr.eqb name) trace).

Definition specialist_calls (trace : list pystr) : nat :=
  List.length (filter (fun n => mem n specialists) trace).

(** The persona prompt of the specialist node of a given name. *)
Definition persona (agent : pystr) : pystr :=
  if PyStr.eqb agent (py "heating_agent") then heating_prompt
  else if PyStr.eqb agent (py "damp_agent") then damp_prompt
  else if PyStr.eqb agent (py "repairs_agent") then repairs_prompt
  else general_prompt.

End HousingGraph.

(* ====================================================================== *)
(** * graphs/uk_housing_agent/tools.py: the stub tools *)
(* ====================================================================== *)

Module HousingTools.

Definition search_housing_knowledge (query : pystr) : pystr :=
  py "Knowledge base results for: " ++ query.

Definition get_boiler_info (boiler_brand : pystr) : pystr :=
  py "Boiler information for " ++ boiler_brand.

Definition get_repair_guidance (issue_type : pystr) : pystr :=
  py "Repair guidance for " ++ issue_type.

Definition schedule_engineer (issue_type urgency : pystr) : pystr :=
  py "Engineer scheduled for " ++ issue_type ++ py " (urgency: " ++ urgency ++ py ")".

(** The three code points after [escalated] are those of the source
    file: U+00E2, U+20AC, U+201C. *)
Definition escalate_to_human (reason : pystr) : pystr :=
  py "Issue escalated " ++ [226%N; 8364%N; 8220%N] ++ py " " ++ reason.

End HousingTools.

(* ====================================================================== *)
(** * src/agent_server/api/openai_compat.py: the HTTP adapter *)
(* ====================================================================== *)

Module OpenAICompat.

Import HousingGraph.

(** ** Request and response models

    Field names are those of the source, with a prefix where two models
    share one.  Left out are the request fields the adapter never reads
    ([temperature], [top_p], [stream_options]) and the response fields
    it always leaves at their default [None] ([logprobs],
    [system_fingerprint]). *)

Record ChatMessage := { role : pystr; content : pystr }.

Record ChatCompletionRequest := {
  model : pystr;
  messages : list ChatMessage;
  max_tokens : option Z;
  stream : bool;
  thread_id : option pystr;
  user : option pystr }.

Record ChatCompletionChoice := {
  index : Z;
  message : ChatMessage;
  finish_reason : pystr }.

Record ChatCompletionUsage := {
  prompt_tokens : Z;
  completion_tokens : Z;
  total_tokens : Z }.

Record ChatCompletionResponse := {
  id : pystr;
  object : pystr;
  created : Z;
  response_model : pystr;
  choices : list ChatCompletionChoice;
  usage : ChatCompletionUsage }.

Record ChatCompletionStreamChoice := {
  stream_index : Z;
  delta : ChatMessage;
  stream_finish_reason : option pystr }.

Record ChatCompletionStreamResponse := {
  chunk_id : pystr;
  chunk_object : pystr;
  chunk_created : Z;
  chunk_model : pystr;
  chunk_choices : list ChatCompletionStreamChoice }.

Record ModelObject := {
  model_id : pystr;
  model_object : pystr;
  model_created : Z;
  owned_by : pystr }.

Record ModelsResponse := { list_object : pystr; data : list ModelObject }.

Record HTTPException := { status_code : Z; detail : pystr }.

Record StreamingResponse := {
  body : list pystr;
  media_type : pystr;
  headers : list (pystr * pystr) }.

(** What [create_chat_completion] returns. *)
Inductive Reply :=
| Json (r : ChatCompletionResponse)
| Streaming (r : StreamingResponse).

(** [..models.User]: only [identity] is read. *)
Record User := { identity : pystr }.

(** ** The graph object

    [graph: Any] is what the registry returns.  A call either returns or
    raises; an exception is kept as its [str(e)]. *)

Inductive Outcome (A : Type) :=
| Returns (a : A)
| Raises (e : pystr).
Arguments Returns {A} a.
Arguments Raises {A} e.

Record InputState := { input_messages : list BaseMessage }.

Record Config := { config_thread_id : pystr; config_user_id : pystr }.

(** An element of [result["messages"]]: a message, or an object without
    a [content] attribute, of which only [str(obj)] is read. *)
Inductive ResultMessage :=
| MessageObj (m : BaseMessage)
| OtherObj (str_obj : pystr).

(** The dict [graph.ainvoke] returns; the key [messages] may be missing. *)
Record ResultState := { result_messages : option (list ResultMessage) }.

(** [event["data"]["chunk"]]: a message chunk with its content, or an
    object without a [content] attribute. *)
Inductive Chunk :=
| AIMessageChunk (chunk_content : Content)
| OtherChunk.

(** An event of [graph.astream_events]: [event.get("event")] and the
    chunk under [data], [None] when [data] or [chunk] is missing (the
    source then reads the default [{}]). *)
Record Event := { event : option pystr; data_chunk : option Chunk }.

(** [astream_events] yields its events and then either stops or raises. *)
Record Graph := {
  ainvoke : InputState -> Config -> Outcome ResultState;
  astream_events : InputState -> Config -> list Event * option pystr }.

(** ** Effects: identifiers, the clock and the calls made to graphs *)

Inductive CallKind := call_ainvoke | call_astream_events.

Record GraphCall := {
  call_kind : CallKind;
  call_input : InputState;
  call_config : Config }.

Record World := {
  uuid_draws : nat;
  clock_reads : nat;
  graph_calls : list GraphCall }.

Definition M (A : Type) : Type := World -> A * World.

Definition ret {A : Type} (a : A) : M A := fun w => (a, w).

Definition bind {A B : Type} (c : M A) (k : A -> M B) : M B :=
  fun w => let (a, w') := c w in k a w'.

Notation "x <- c ;; k" := (bind c (fun x => k))
  (at level 61, c at next level, right associativity).

Definition log_call (c : GraphCall) : M unit :=
  fun w => (tt, {| uuid_draws := uuid_draws w;
                   clock_reads := clock_reads w;
                   graph_calls := graph_calls w ++ [c] |}).

(** [messages[-1]] *)
Fixpoint last_item {A : Type} (l : list A) : option A :=
  match l with
  | [] => None
  | [x] => Some x
  | _ :: l' => last_item l'
  end.

(** ** Helper functions *)

Definition _convert_messages_to_langgraph_format (messages : list ChatMessage)
    : list BaseMessage :=
  fold_left
    (fun converted msg =>
       if PyStr.eqb (role msg) (py "system") then
         converted ++ [SystemMessage (Text (content msg))]
       else if PyStr.eqb (role msg) (py "user") then
         converted ++ [HumanMessage (Text (content msg))]
       else if PyStr.eqb (role msg) (py "assistant") then
         converted ++ [AIMessage (Text (content msg)) []]
       else converted)
    messages [].

(** The content of an event when it is a model-token event: an event
    [on_chat_model_stream] whose chunk has a non-empty [content]. *)
Definition token_of (ev : Event) : option Content :=
  match event ev, data_chunk ev with
  | Some ty, Some (AIMessageChunk chunk_content) =>
      if PyStr.eqb ty (py "on_chat_model_stream") then
        match chunk_content with
        | Text (c :: cs) => Some (Text (c :: cs))
        | Blocks (b :: bs) => Some (Blocks (b :: bs))
        | Text [] | Blocks [] => None
        end
      else None
  | _, _ => None
  end.

(** The string contents of the model-token events of a stream, in
    arrival order, up to the first token whose content is not a string
    (all of them when there is none). *)
Fixpoint token_contents (events : list Event) : list pystr :=
  match events with
  | [] => []
  | ev :: rest =>
      match token_of ev with
      | Some (Text token) => token :: token_contents rest
      | Some (Blocks _) => []
      | None => token_contents rest
      end
  end.

(** Whether the content of every model-token event is a string. *)
Definition tokens_are_text (events : list Event) : bool :=
  forallb
    (fun ev => match token_of ev with Some (Blocks _) => false | _ => true end)
    events.

(** [str(e)] of the [TypeError] that [full_response += content] raises
    when [content] is a list; the code point 34 is the double quote. *)
Definition str_plus_list_error : pystr :=
  py "can only concatenate str (not " ++ [34%N] ++ py "list" ++ [34%N] ++ py ") to str".

(** The internal message a chat message of a recognised role becomes;
    nothing for any other role. *)
Definition converted_message (msg : ChatMessage) : list BaseMessage :=
  if PyStr.eqb (role msg) (py "system") then [SystemMessage (Text (content msg))]
  else if PyStr.eqb (role msg) (py "user") then [HumanMessage (Text (content msg))]
  else if PyStr.eqb (role msg) (py "assistant") then [AIMessage (Text (content msg)) []]
  else [].

Section Adapter.

(** [langgraph_service.get_graph(graph_id)] of the graph registry, whose
    source is not part of this development: the graph registered under
    the id, or [None] when the id is unknown and the registry raises the
    not-found exception, the [KeyError] that [_get_graph_or_404] catches. *)
Variable get_graph : pystr -> option Graph.

(** [str(uuid4())] of the n-th identifier drawn, and
    [int(datetime.now(UTC).timestamp())] at the n-th reading of the clock. *)
Variable uuid_source : nat -> pystr.
Variable clock : nat -> Z.

(** pydantic's [model_dump_json()] of a chunk and Python's [str()] of the
    request's message list. *)
Variable model_dump_json : ChatCompletionStreamResponse -> pystr.
Variable str_messages : list ChatMessage -> pystr.

(** [str(e)] of the pydantic [ValidationError] that
    [ChatMessage(role=..., content=...)] raises when the content it is
    given is a list of blocks and not a string. *)
Variable validation_error : list pystr -> pystr.

Definition uuid4 : M pystr :=
  fun w => (uuid_source (uuid_draws w),
            {| uuid_draws := S (uuid_draws w);
               clock_reads := clock_reads w;
               graph_calls := graph_calls w |}).

Definition timestamp_now : M Z :=
  fun w => (clock (clock_reads w),
            {| uuid_draws := uuid_draws w;
               clock_reads := S (clock_reads w);
               graph_calls := graph_calls w |}).

Definition _get_graph_or_404 (graph_id : pystr) : M (HTTPException + Graph) :=
  match get_graph graph_id with
  | Some graph => ret (inr graph)
  | None =>
      ret (inl {| status_code := 404;
                  detail := py "Graph/Model '" ++ graph_id ++ py "' not found" |})
  end.

Definition get_model (model_id : pystr) : M (HTTPException + ModelObject) :=
  found <- _get_graph_or_404 model_id ;;
  match found with
  | inl e => ret (inl e)
  | inr _ =>
      now <- timestamp_now ;;
      ret (inr {| model_id := model_id;
                  model_object := py "model";
                  model_created := now;
                  owned_by := py "aegra" |})
  end.

Definition _chat_completion_non_streaming (request : ChatCompletionRequest)
    (graph : Graph) (thread_id : pystr) (user : User)
    : M (HTTPException + ChatCompletionResponse) :=
  let converted_messages := _convert_messages_to_langgraph_format (messages request) in
  let input_state := {| input_messages := converted_messages |} in
  let config := {| config_thread_id := thread_id; config_user_id := identity user |} in
  _ <- log_call {| call_kind := call_ainvoke;
                   call_input := input_state;
                   call_config := config |} ;;
  match ainvoke graph input_state config with
  | Raises e =>
      ret (inl {| status_code := 500;
                  detail := py "Error processing request: " ++ e |})
  | Returns result =>
      let messages :=
        match result_messages result with Some ms => ms | None => [] end in
      let response_content :=
        match last_item messages with
        | None => Text (py "No response generated")
        | Some (MessageObj last_msg) => HousingGraph.content last_msg
        | Some (OtherObj str_last_msg) => Text str_last_msg
        end in
      u <- uuid4 ;;
      now <- timestamp_now ;;
      match response_content with
      | Blocks blocks =>
          (* ChatMessage(content=...) rejects a list: the exception is
             caught like any other *)
          ret (inl {| status_code := 500;
                      detail := py "Error processing request: "
                                ++ validation_error blocks |})
      | Text response_content =>
          ret (inr
            {| id := py "chatcmpl-" ++ u;
               object := py "chat.completion";
               created := now;
               response_model := model request;
               choices :=
                 [ {| index := 0;
                      message := {| role := py "assistant"; content := response_content |};
                      finish_reason := py "stop" |} ];
               usage :=
                 {| prompt_tokens := Z.of_nat (List.length (str_messages (OpenAICompat.messages request)));
                    completion_tokens := Z.of_nat (List.length response_content);
                    total_tokens :=
                      Z.of_nat (List.length (str_messages (OpenAICompat.messages request)))
                      + Z.of_nat (List.length response_content) |} |})
      end
  end.

(** One SSE line: [f"data: {response.model_dump_json()}\n\n"]. *)
Definition sse_line (response : ChatCompletionStreamResponse) : pystr :=
  py "data: " ++ model_dump_json response ++ [10%N; 10%N].

Definition done_line : pystr := py "data: [DONE]" ++ [10%N; 10%N].

Definition error_line (e : pystr) : pystr :=
  py "data: {'error': {'message': '" ++ e ++ py "'}}" ++ [10%N; 10%N].

(** The [async for] loop over the events.  The state of the loop is
    [full_response]; the result is the lines yielded and, when the body
    of the loop raised, the [str(e)] of the exception, after which no
    further event is read. *)
Fixpoint stream_loop (request : ChatCompletionRequest) (events : list Event)
    (full_response : pystr) : M (pystr * list pystr * option pystr) :=
  match events with
  | [] => ret (full_response, [], None)
  | ev :: rest =>
      let event_type := event ev in
      match event_type, data_chunk ev with
      | Some ty, Some (AIMessageChunk chunk_content) =>
          if PyStr.eqb ty (py "on_chat_model_stream") then
            match chunk_content with
            | Text (c :: cs) =>
                let content := c :: cs in
                let full_response := full_response ++ content in
                let choice :=
                  {| stream_index := 0;
                     delta := {| role := py "assistant"; content := content |};
                     stream_finish_reason := None |} in
                u <- uuid4 ;;
                now <- timestamp_now ;;
                let response :=
                  {| chunk_id := py "chatcmpl-" ++ u;
                     chunk_object := py "chat.completion.chunk";
                     chunk_created := now;
                     chunk_model := model request;
                     chunk_choices := [choice] |} in
                r <- stream_loop request rest full_response ;;
                ret (fst (fst r), sse_line response :: snd (fst r), snd r)
            | Blocks (b :: bs) =>
                (* full_response += content: str + list *)
                ret (full_response, [], Some str_plus_list_error)
            | Text [] | Blocks [] => stream_loop request rest full_response
            end
          else stream_loop request rest full_response
      | _, _ => stream_loop request rest full_response
      end
  end.

Definition _stream_chat_completion (request : ChatCompletionRequest)
    (graph : Graph) (thread_id : pystr) (user : User) : M (list pystr) :=
  let converted_messages := _convert_messages_to_langgraph_format (messages request) in
  let input_state := {| input_messages := converted_messages |} in
  let config := {| config_thread_id := thread_id; config_user_id := identity user |} in
  _ <- log_call {| call_kind := call_astream_events;
                   call_input := input_state;
                   call_config := config |} ;;
  let (events, raised) := astream_events graph input_state config in
  r <- stream_loop request events [] ;;
  let lines := snd (fst r) in
  match snd r with
  | Some e => ret (lines ++ [error_line e])
  | None =>
      match raised with
      | Some e => ret (lines ++ [error_line e])
      | None =>
          let final_choice :=
            {| stream_index := 0;
               delta := {| role := py "assistant"; content := [] |};
               stream_finish_reason := Some (py "stop") |} in
          u <- uuid4 ;;
          now <- timestamp_now ;;
          let final_response :=
            {| chunk_id := py "chatcmpl-" ++ u;
               chunk_object := py "chat.completion.chunk";
               chunk_created := now;
               chunk_model := model request;
               chunk_choices := [final_choice] |} in
          ret (lines ++ [sse_line final_response; done_line])
      end
  end.

Definition create_chat_completion (request : ChatCompletionRequest) (user : User)
    : M (HTTPException + Reply) :=
  found <- _get_graph_or_404 (model request) ;;
  match found with
  | inl e => ret (inl e)
  | inr graph =>
      (* request.thread_id or f"thread-{uuid4()}": None and the empty
         string are falsy *)
      thread_id <-
        match thread_id request with
        | Some (c :: cs) => ret (c :: cs)
        | _ => u <- uuid4 ;; ret (py "thread-" ++ u)
        end ;;
      if stream request then
        lines <- _stream_chat_completion request graph thread_id user ;;
        ret (inr (Streaming
          {| body := lines;
             media_type := py "text/event-stream";
             headers := [ (py "Cache-Control", py "no-cache");
                          (py "Connection", py "keep-alive");
                          (py "X-Accel-Buffering", py "no") ] |}))
      else
        r <- _chat_completion_non_streaming request graph thread_id user ;;
        match r with
        | inl e => ret (inl e)
        | inr response => ret (inr (Json response))
        end
  end.

(** [langgraph_service.list_graphs()]: the registered graph ids, in the
    order in which iterating over them yields them. *)
Variable list_graphs : list pystr.

(** The list comprehension of [list_models]: one model object per graph
    id, each with its own reading of the clock. *)
Fixpoint model_objects (graphs : list pystr) : M (list ModelObject) :=
  match graphs with
  | [] => ret []
  | graph_id :: rest =>
      now <- timestamp_now ;;
      models <- model_objects rest ;;
      ret ({| model_id := graph_id;
              model_object := py "model";
              model_created := now;
              owned_by := py "aegra" |} :: models)
  end.

Definition list_models : M ModelsResponse :=
  let graphs := list_graphs in
  models <- model_objects graphs ;;
  ret {| list_object := py "list"; data := models |}.

(** [openai_health_check]: the dict it returns, as its items. *)
Definition openai_health_check : list (pystr * pystr) :=
  [ (py "status", py "ok"); (py "service", py "aegra-openai-compat") ].

End Adapter.

End OpenAICompat.
(* ====================================================================== *)
(** * Concrete collaborators for the scenarios *)
(* ====================================================================== *)

Module Scenario.

Import HousingGraph.

(** A lower-case mapping that leaves every code point outside ASCII as
    it is. *)
Definition ascii_only_lower : list N -> N -> list N -> list N :=
  fun _ c _ => [c].

(** A classifier model with a fixed reply. *)
Definition replying (reply : pystr) : ChatModel :=
  fun _ => Some (AIMessage (Text reply) []).

(** A model that answers with a list of content blocks. *)
Definition replying_blocks (blocks : list pystr) : ChatModel :=
  fun _ => Some (AIMessage (Blocks blocks) []).

(** A reducer for histories in which every message written has an id of
    its own: it appends. *)
Definition appending : list BaseMessage -> list BaseMessage -> list BaseMessage :=
  fun history written => history ++ written.

(** A model whose provider call fails. *)
Definition failing : ChatModel := fun _ => None.

Definition user_says (text : string) : StateDict :=
  {| d_messages := Some [HumanMessage (Text (py text))];
     d_issue_type := None;
     d_current_agent := None |}.

Import OpenAICompat.

(** A graph that answers every call with one assistant message and
    streams it in two tokens, between events of other kinds. *)
Definition answering_graph : Graph :=
  {| ainvoke := fun input _ =>
       Returns {| result_messages :=
         Some (map MessageObj (input_messages input)
               ++ [MessageObj (AIMessage (Text (py "Bleed the radiators.")) [])]) |};
     astream_events := fun _ _ =>
       ([ {| event := Some (py "on_chain_start"); data_chunk := None |};
          {| event := Some (py "on_chat_model_stream");
             data_chunk := Some (AIMessageChunk (Text (py "Bleed "))) |};
          {| event := Some (py "on_chat_model_stream");
             data_chunk := Some (AIMessageChunk (Text (py ""))) |};
          {| event := Some (py "on_chat_model_stream");
             data_chunk := Some (AIMessageChunk (Text (py "the radiators."))) |};
          {| event := Some (py "on_chain_end"); data_chunk := Some OtherChunk |} ],
        None) |}.

(** A graph whose final state has no messages. *)
Definition silent_graph : Graph :=
  {| ainvoke := fun _ _ => Returns {| result_messages := Some [] |};
     astream_events := fun _ _ => ([], None) |}.

(** A registry with the two graphs above. *)
Definition registry (graph_id : pystr) : option Graph :=
  if PyStr.eqb graph_id (py "uk_housing") then Some answering_graph
  else if PyStr.eqb graph_id (py "silent") then Some silent_graph
  else None.

Definition uuids (n : nat) : pystr :=
  py "00000000-0000-4000-8000-00000000000" ++ [(48 + N.of_nat (n mod 10))%N].

Definition ticks (n : nat) : Z := (1700000000 + Z.of_nat n)%Z.

(** Stand-ins for the renderings: the delta's content, and the contents
    of the messages one after the other. *)
Definition dump_content (r : ChatCompletionStreamResponse) : pystr :=
  List.concat (map (fun c => content (delta c)) (chunk_choices r)).

Definition contents_of (ms : list ChatMessage) : pystr := List.concat (map content ms).

Definition world0 : World :=
  {| uuid_draws := 0; clock_reads := 0; graph_calls := [] |}.

Definition tenant : User := {| identity := py "tenant-7" |}.

Definition ask (graph_id : string) (text : string) (streamed : bool)
    (thread : option pystr) : ChatCompletionRequest :=
  {| model := py graph_id;
     messages := [ {| role := py "system"; content := py "Be brief." |};
                   {| role := py "tool"; content := py "ignored" |};
                   {| role := py "user"; content := py text |} ];
     max_tokens := None;
     stream := streamed;
     thread_id := thread;
     user := None |}.

(** An identifier source that never repeats: the n-th identifier is n
    times the digit 0. *)
Definition unary_uuids (n : nat) : pystr := repeat 48%N n.

(** A graph whose event stream breaks after its first token. *)
Definition breaking_graph : Graph :=
  {| ainvoke := fun _ _ => Raises (py "provider unavailable");
     astream_events := fun _ _ =>
       ([ {| event := Some (py "on_chat_model_stream");
             data_chunk := Some (AIMessageChunk (Text (py "Bleed "))) |} ],
        Some (py "provider unavailable")) |}.

(** A graph whose model answers with a list of content blocks: the run
    raises nothing, the last message of the final state and the second
    token of the stream have a list as content. *)
Definition blocks_graph : Graph :=
  {| ainvoke := fun input _ =>
       Returns {| result_messages :=
         Some (map MessageObj (input_messages input)
               ++ [MessageObj (AIMessage (Blocks [py "Bleed the radiators."]) [])]) |};
     astream_events := fun _ _ =>
       ([ {| event := Some (py "on_chat_model_stream");
             data_chunk := Some (AIMessageChunk (Text (py "heating"))) |};
          {| event := Some (py "on_chat_model_stream");
             data_chunk := Some (AIMessageChunk (Blocks [py "Bleed the radiators."])) |};
          {| event := Some (py "on_chat_model_stream");
             data_chunk := Some (AIMessageChunk (Text (py "Done."))) |} ],
        None) |}.

(** A stand-in for the text of the validation error. *)
Definition not_a_string (blocks : list pystr) : pystr :=
  py "Input should be a valid string".

(** The final states of two turns on one thread, with the classifier
    replying [heating] and the agent [Bleed the radiators.]. *)
Definition turn1_final : StateDict :=
  {| d_messages := Some [ HumanMessage (Text (py "My boiler keeps cutting out"));
                          AIMessage (Text (py "Bleed the radiators.")) [] ];
     d_issue_type := Some (Some (py "heating"));
     d_current_agent := None |}.

Definition turn2_final : StateDict :=
  {| d_messages := Some [ HumanMessage (Text (py "My boiler keeps cutting out"));
                          AIMessage (Text (py "Bleed the radiators.")) [];
                          HumanMessage (Text (py "It still cuts out"));
                          AIMessage (Text (py "Bleed the radiators.")) [] ];
     d_issue_type := Some (Some (py "heating"));
     d_current_agent := None |}.

End Scenario.

(* ====================================================================== *)
(** * Properties *)
(* ====================================================================== *)

(** ** Strings *)

Lemma pystr_eqb_refl (a : pystr) : PyStr.eqb a a = true.
Proof.
  induction a as [|x a IH]; simpl; [reflexivity|].
  now rewrite N.eqb_refl, IH.
Qed.

Lemma pystr_eqb_eq (a b : pystr) : PyStr.eqb a b = true <-> a = b.
Proof.
  split.
  - revert b; induction a as [|x a IH]; intros [|y b] H; simpl in H;
      try discriminate; [reflexivity|].
    apply andb_true_iff in H as [Hx Hab].
    apply N.eqb_eq in Hx. apply IH in Hab. now subst.
  - intros ->. apply pystr_eqb_refl.
Qed.

Lemma pystr_eqb_neq (a b : pystr) : PyStr.eqb a b = false <-> a <> b.
Proof.
  split.
  - intros H E. apply pystr_eqb_eq in E. congruence.
  - intros H. destruct (PyStr.eqb a b) eqn:E; [|reflexivity].
    apply pystr_eqb_eq in E. contradiction.
Qed.

Lemma mem_In (x : pystr) (xs : list pystr) : mem x xs = true <-> In x xs.
Proof.
  unfold mem. rewrite existsb_exists. split.
  - intros (y & Hy & E). apply pystr_eqb_eq in E. now subst.
  - intros H. exists x. split; [assumption | apply pystr_eqb_refl].
Qed.

Lemma mem_not_In (x : pystr) (xs : list pystr) : mem x xs = false <-> ~ In x xs.
Proof.
  rewrite <- mem_In. destruct (mem x xs); split; congruence.
Qed.

Ltac split_comparisons :=
  repeat match goal with
  | |- context [N.leb ?a ?b] => destruct (N.leb_spec a b); try lia
  | |- context [N.eqb ?a ?b] => destruct (N.eqb_spec a b); try lia
  end.

Lemma isspace_ascii_lower (c : N) : isspace (ascii_lower c) = isspace c.
Proof.
  unfold ascii_lower.
  destruct ((65 <=? c) && (c <=? 90))%N eqn:E; [|reflexivity].
  apply andb_true_iff in E as [H1 H2].
  apply N.leb_le in H1, H2.
  unfold isspace. split_comparisons; reflexivity.
Qed.

(** On ASCII strings [lower] does not consult the Unicode mapping. *)
Lemma lower_from_ascii (unicode_lower : list N -> N -> list N -> list N)
    (before s : list N) :
  is_ascii s = true -> lower_from unicode_lower before s = map ascii_lower s.
Proof.
  revert before. induction s as [|c s IH]; intros before H; [reflexivity|].
  simpl in H. apply andb_true_iff in H as [Hc Hs].
  simpl. rewrite (IH _ Hs). unfold lower_at, ascii_lower.
  destruct ((65 <=? c) && (c <=? 90))%N; [reflexivity|].
  rewrite Hc. reflexivity.
Qed.

Lemma lstrip_map_lower (s : pystr) :
  lstrip (map ascii_lower s) = map ascii_lower (lstrip s).
Proof.
  induction s as [|c s IH]; [reflexivity|].
  simpl. rewrite isspace_ascii_lower.
  destruct (isspace c); [exact IH | reflexivity].
Qed.

Lemma strip_map_lower (s : pystr) :
  strip (map ascii_lower s) = map ascii_lower (strip s).
Proof.
  unfold strip, rstrip.
  now rewrite lstrip_map_lower, <- map_rev, lstrip_map_lower, map_rev.
Qed.

Lemma is_ascii_lstrip (s : pystr) : is_ascii s = true -> is_ascii (lstrip s) = true.
Proof.
  induction s as [|c s IH]; intros H; [reflexivity|].
  simpl. destruct (isspace c); [|exact H].
  simpl in H. apply andb_true_iff in H as [_ H]. now apply IH.
Qed.

Lemma is_ascii_rev (s : pystr) : is_ascii (rev s) = is_ascii s.
Proof.
  unfold is_ascii. induction s as [|c s IH]; [reflexivity|].
  simpl. rewrite forallb_app, IH. simpl. rewrite andb_true_r. apply andb_comm.
Qed.

Lemma is_ascii_strip (s : pystr) : is_ascii s = true -> is_ascii (strip s) = true.
Proof.
  intros H. unfold strip, rstrip.
  rewrite is_ascii_rev. apply is_ascii_lstrip. rewrite is_ascii_rev.
  now apply is_ascii_lstrip.
Qed.

(** Trimming and lower-casing an ASCII string commute. *)
Lemma lower_strip_ascii (unicode_lower : list N -> N -> list N -> list N)
    (s : pystr) :
  is_ascii s = true ->
  lower unicode_lower (strip s) = strip (lower unicode_lower s).
Proof.
  intros H. unfold lower.
  rewrite (@lower_from_ascii unicode_lower [] (strip s) (is_ascii_strip s H)).
  rewrite (@lower_from_ascii unicode_lower [] s H).
  symmetry. apply strip_map_lower.
Qed.

Example strip_unicode_space :
  strip ([160; 9] ++ py "damp" ++ [8195; 10])%N = py "damp".
Proof. reflexivity. Qed.

(** ** The classifier *)

Module ClassifierFacts.
Import HousingGraph.

(** C1.  Whatever string the classifier model replies, [detect_intent]
    returns the update [{"issue_type": t}] where [t] is the reply trimmed
    and lower-cased when that is one of heating, damp, repairs, general,
    and [general] otherwise; so [t] is always one of the four values and
    never empty, and the node does not raise.  For an ASCII reply,
    trimming and lower-casing give the same string in either order. *)
Theorem detect_intent_issue_type
    (unicode_lower : list N -> N -> list N -> list N)
    (intent_llm : ChatModel) (state : State) (response : BaseMessage)
    (reply : pystr) :
  intent_llm (SystemMessage (Text intent_prompt) :: state_messages state)
    = Some response ->
  content response = Text reply ->
  let detected := lower unicode_lower (strip reply) in
  exists t : pystr,
    detect_intent unicode_lower intent_llm state
      = Some {| d_messages := None;
                d_issue_type := Some (Some t);
                d_current_agent := None |}
    /\ In t [py "heating"; py "damp"; py "repairs"; py "general"]
    /\ t <> []
    /\ (In detected [py "heating"; py "damp"; py "repairs"; py "general"] -> t = detected)
    /\ (~ In detected [py "heating"; py "damp"; py "repairs"; py "general"]
        -> t = py "general")
    /\ (is_ascii reply = true
        -> detected = strip (lower unicode_lower reply)).
Proof.
  intros Hllm Hreply detected.
  unfold detect_intent. rewrite Hllm, Hreply. fold detected.
  change [py "heating"; py "damp"; py "repairs"; py "general"] with valid_types.
  assert (Hcomm : is_ascii reply = true
                  -> detected = strip (lower unicode_lower reply))
    by apply lower_strip_ascii.
  destruct (mem detected valid_types) eqn:Hmem.
  - exists detected. apply mem_In in Hmem.
    repeat split; try assumption; try reflexivity.
    + intros E. rewrite E in Hmem. simpl in Hmem.
      repeat (destruct Hmem as [Hmem | Hmem]; [discriminate|]). exact Hmem.
    + intros Hn. contradiction.
  - exists (py "general"). apply mem_not_In in Hmem.
    repeat split; try assumption; try reflexivity.
    + right; right; right; left; reflexivity.
    + discriminate.
    + intros Hin. contradiction.
Qed.

Lemma detect_intent_issue_type_witness :
  exists t : pystr,
    detect_intent Scenario.ascii_only_lower (Scenario.replying (py "  Heating "))
      (AsDict (Scenario.user_says "My boiler keeps cutting out"))
      = Some {| d_messages := None; d_issue_type := Some (Some t); d_current_agent := None |}
    /\ In t [py "heating"; py "damp"; py "repairs"; py "general"]
    /\ t = py "heating".
Proof.
  destruct (@detect_intent_issue_type Scenario.ascii_only_lower
              (Scenario.replying (py "  Heating "))
              (AsDict (Scenario.user_says "My boiler keeps cutting out"))
              (AIMessage (Text (py "  Heating ")) []) (py "  Heating ")
              eq_refl eq_refl)
    as (t & Hupdate & Hin & _ & Hvalid & _).
  exists t. repeat split; try assumption.
  apply Hvalid. left. reflexivity.
Defined.

(** A reply whose content is a list of blocks is no string: the node
    raises on [response.content.strip()]. *)
Lemma detect_intent_blocks_raise
    (unicode_lower : list N -> N -> list N -> list N)
    (intent_llm : ChatModel) (state : State) (response : BaseMessage)
    (blocks : list pystr) :
  intent_llm (SystemMessage (Text intent_prompt) :: state_messages state)
    = Some response ->
  content response = Blocks blocks ->
  detect_intent unicode_lower intent_llm state = None.
Proof.
  intros Hllm Hblocks. unfold detect_intent. now rewrite Hllm, Hblocks.
Qed.

(** Scenario A: a reply [heating], with stray blanks and capitals. *)
Example classify_heating :
  detect_intent Scenario.ascii_only_lower (Scenario.replying (py " HEATING"))
    (AsDict (Scenario.user_says "My boiler keeps cutting out"))
  = Some {| d_messages := None; d_issue_type := Some (Some (py "heating"));
            d_current_agent := None |}.
Proof. reflexivity. Qed.

(** Scenario C: a reply outside the known set. *)
Example classify_unparseable :
  detect_intent Scenario.ascii_only_lower
    (Scenario.replying (py "I think this is about heating"))
    (AsDict (Scenario.user_says "qwerty asdf"))
  = Some {| d_messages := None; d_issue_type := Some (Some (py "general"));
            d_current_agent := None |}.
Proof. reflexivity. Qed.

Example classify_empty_reply :
  detect_intent Scenario.ascii_only_lower (Scenario.replying (py ""))
    (AsObject {| messages := []; issue_type := None; current_agent := None |})
  = Some {| d_messages := None; d_issue_type := Some (Some (py "general"));
            d_current_agent := None |}.
Proof. reflexivity. Qed.

End ClassifierFacts.

(** ** Dispatch *)

Module DispatchFacts.
Import HousingGraph.

Lemma dict_get_routing (k : pystr) :
  dict_get routing k (py "general_agent") =
    if PyStr.eqb k (py "heating") then py "heating_agent"
    else if PyStr.eqb k (py "damp") then py "damp_agent"
    else if PyStr.eqb k (py "repairs") then py "repairs_agent"
    else py "general_agent".
Proof.
  unfold routing, dict_get.
  destruct (PyStr.eqb (py "heating") k) eqn:E1.
  { apply pystr_eqb_eq in E1. subst k. reflexivity. }
  destruct (PyStr.eqb (py "damp") k) eqn:E2.
  { apply pystr_eqb_eq in E2. subst k. reflexivity. }
  destruct (PyStr.eqb (py "repairs") k) eqn:E3.
  { apply pystr_eqb_eq in E3. subst k. reflexivity. }
  apply pystr_eqb_neq in E1, E2, E3.
  assert (H1 : PyStr.eqb k (py "heating") = false)
    by (apply pystr_eqb_neq; congruence).
  assert (H2 : PyStr.eqb k (py "damp") = false)
    by (apply pystr_eqb_neq; congruence).
  assert (H3 : PyStr.eqb k (py "repairs") = false)
    by (apply pystr_eqb_neq; congruence).
  rewrite H1, H2, H3.
  destruct (PyStr.eqb (py "general") k); reflexivity.
Qed.

Lemma route_to_agent_specialist (state : State) :
  In (route_to_agent state) specialists.
Proof.
  assert (G : forall v, In (routing_get v) specialists).
  { intros [k|]; unfold routing_get.
    - rewrite dict_get_routing.
      destruct (PyStr.eqb k (py "heating")); [now left|].
      destruct (PyStr.eqb k (py "damp")); [now right; left|].
      destruct (PyStr.eqb k (py "repairs")); [now right; right; left|].
      now right; right; right; left.
    - now right; right; right; left. }
  unfold route_to_agent. apply G.
Qed.

(** C3.  [route_to_agent] depends on the state only through the issue
    type it carries: heating, damp, repairs and general go to their agents
    and every other value, a missing key and [None] go to the general
    agent; the result is always one of the four specialists. *)
Theorem route_to_agent_mapping (state : State) :
  route_to_agent state =
    match carried_issue_type state with
    | Some k =>
        if PyStr.eqb k (py "heating") then py "heating_agent"
        else if PyStr.eqb k (py "damp") then py "damp_agent"
        else if PyStr.eqb k (py "repairs") then py "repairs_agent"
        else if PyStr.eqb k (py "general") then py "general_agent"
        else py "general_agent"
    | None => py "general_agent"
    end
  /\ In (route_to_agent state)
        [py "heating_agent"; py "damp_agent"; py "repairs_agent"; py "general_agent"].
Proof.
  split; [|apply route_to_agent_specialist].
  assert (G : forall k, routing_get (Some k) =
      if PyStr.eqb k (py "heating") then py "heating_agent"
      else if PyStr.eqb k (py "damp") then py "damp_agent"
      else if PyStr.eqb k (py "repairs") then py "repairs_agent"
      else if PyStr.eqb k (py "general") then py "general_agent"
      else py "general_agent").
  { intros k. unfold routing_get. rewrite dict_get_routing.
    destruct (PyStr.eqb k (py "general")); reflexivity. }
  destruct state as [d | o]; unfold route_to_agent, carried_issue_type.
  - destruct (d_issue_type d) as [[k|]|]; [apply G | reflexivity | reflexivity].
  - destruct (issue_type o) as [[|c k]|]; [reflexivity | apply G | reflexivity].
Qed.

Example route_heating_dict :
  route_to_agent (AsDict {| d_messages := None;
                            d_issue_type := Some (Some (py "heating"));
                            d_current_agent := None |}) = py "heating_agent".
Proof. reflexivity. Qed.

Example route_missing_key :
  route_to_agent (AsDict {| d_messages := None; d_issue_type := None;
                            d_current_agent := None |}) = py "general_agent".
Proof. reflexivity. Qed.

Example route_unknown_value :
  route_to_agent (AsObject {| messages := []; issue_type := Some (py "Heating");
                              current_agent := None |}) = py "general_agent".
Proof. reflexivity. Qed.

End DispatchFacts.

(** ** The routing graph *)

Module GraphFacts.
Import HousingGraph.

Section Run.

Variable unicode_lower : list N -> N -> list N -> list N.
Variable intent_llm : ChatModel.
Variable agent_llm : ChatModel.

Local Abbreviation g := (graph unicode_lower intent_llm agent_llm).

Lemma successor_start (s : StateDict) :
  successor g START s = Some (py "detect_intent").
Proof. reflexivity. Qed.

Lemma successor_detect_intent (s : StateDict) :
  successor g (py "detect_intent") s = Some (route_to_agent (AsDict s)).
Proof. reflexivity. Qed.

Lemma successor_specialist (a : pystr) (s : StateDict) :
  In a specialists -> successor g a s = Some END.
Proof.
  intros [E|[E|[E|[E|[]]]]]; subst a; reflexivity.
Qed.

Lemma specialist_node (a : pystr) :
  In a specialists ->
  PyStr.eqb a END = false /\
  exists prompt, lookup (nodes g) a = Some (agent_node agent_llm prompt).
Proof.
  intros [E|[E|[E|[E|[]]]]]; subst a; (split; [reflexivity|]).
  - exists heating_prompt. reflexivity.
  - exists damp_prompt. reflexivity.
  - exists repairs_prompt. reflexivity.
  - exists general_prompt. reflexivity.
Qed.

Lemma detect_intent_node :
  lookup (nodes g) (py "detect_intent") = Some (detect_intent unicode_lower intent_llm).
Proof. reflexivity. Qed.

Lemma calls_of_detect_intent (a : pystr) :
  In a specialists ->
  calls_of (py "detect_intent") [py "detect_intent"; a] = 1
  /\ specialist_calls [py "detect_intent"; a] = 1.
Proof.
  intros [E|[E|[E|[E|[]]]]]; subst a; split; reflexivity.
Qed.

Variable add_messages : list BaseMessage -> list BaseMessage -> list BaseMessage.

Lemma run_from_step (fuel : nat) (gr : StateGraph) (node : pystr) (s : StateDict)
    (trace : list pystr) :
  run_from add_messages (S fuel) gr node s trace =
    match successor gr node s with
    | None => Finished trace s
    | Some target =>
        if PyStr.eqb target END then Finished trace s
        else
          match lookup (nodes gr) target with
          | None => Raised trace
          | Some action =>
              match action (AsDict s) with
              | None => Raised (trace ++ [target])
              | Some update =>
                  run_from add_messages fuel gr target
                    (apply_update add_messages s update) (trace ++ [target])
              end
          end
    end.
Proof. reflexivity. Qed.

(** C2.  A run of the graph, given enough fuel for its three steps, calls
    [detect_intent] once, then the one specialist [route_to_agent] names,
    and then finishes: the trace of a finished run is
    [detect_intent; agent].  A run ends otherwise only when a node raises
    (the model call of [detect_intent] or of the specialist fails), and
    then too [detect_intent] was called once and at most one specialist.
    Every specialist is followed by the end node, and no successor of
    [detect_intent] or of a specialist is [detect_intent].  This holds on
    a new thread ([invoke]) and on a thread with a saved state, whatever
    the reducer of [messages] does. *)
Theorem graph_run_shape (fuel : nat) (saved input : StateDict) :
  3 <= fuel ->
  let start := apply_update add_messages saved (input_state input) in
  match resume add_messages fuel g saved input with
  | Finished trace final =>
      exists update agent,
        detect_intent unicode_lower intent_llm (AsDict start) = Some update
        /\ agent = route_to_agent (AsDict (apply_update add_messages start update))
        /\ trace = [py "detect_intent"; agent]
        /\ In agent specialists
        /\ calls_of (py "detect_intent") trace = 1
        /\ specialist_calls trace = 1
  | Raised trace =>
      (detect_intent unicode_lower intent_llm (AsDict start) = None
       /\ trace = [py "detect_intent"])
      \/ (exists update agent prompt,
            detect_intent unicode_lower intent_llm (AsDict start) = Some update
            /\ agent = route_to_agent (AsDict (apply_update add_messages start update))
            /\ agent_node agent_llm prompt
                 (AsDict (apply_update add_messages start update)) = None
            /\ trace = [py "detect_intent"; agent]
            /\ In agent specialists)
  | OutOfFuel _ => False
  end
  /\ (forall a s, In a specialists -> successor g a s = Some END)
  /\ (forall n s, In n (py "detect_intent" :: specialists) ->
        successor g n s <> Some (py "detect_intent")).
Proof.
  intros Hfuel start. split; [|split].
  - destruct fuel as [|[|[|fuel]]]; try lia.
    unfold resume. fold start.
    rewrite run_from_step, successor_start.
    change (PyStr.eqb (py "detect_intent") END) with false. cbv iota.
    rewrite detect_intent_node.
    destruct (detect_intent unicode_lower intent_llm (AsDict start))
      as [update|] eqn:Hclassify.
    2:{ left. split; reflexivity. }
    rewrite run_from_step, successor_detect_intent.
    set (s1 := apply_update add_messages start update).
    pose proof (DispatchFacts.route_to_agent_specialist (AsDict s1)) as Hin.
    set (agent := route_to_agent (AsDict s1)) in *.
    destruct (@specialist_node agent Hin) as [Hend [prompt Hnode]].
    rewrite Hend, Hnode.
    destruct (agent_node agent_llm prompt (AsDict s1)) as [reply|] eqn:Hagent.
    + rewrite run_from_step, (@successor_specialist agent _ Hin).
      change (PyStr.eqb END END) with true. cbv iota.
      exists update, agent.
      destruct (@calls_of_detect_intent agent Hin) as [Hc Hs].
      repeat split; assumption || reflexivity.
    + right. exists update, agent, prompt.
      repeat split; assumption || reflexivity.
  - intros a s Ha. apply (@successor_specialist a s Ha).
  - intros n s [E|Hn].
    + subst n. rewrite successor_detect_intent. intros H. injection H as H.
      pose proof (DispatchFacts.route_to_agent_specialist (AsDict s)) as Hin.
      rewrite H in Hin.
      destruct Hin as [E|[E|[E|[E|[]]]]]; discriminate E.
    + rewrite (@successor_specialist n s Hn). discriminate.
Qed.

End Run.

Lemma graph_run_shape_witness :
  exists agent,
    trace_of (invoke Scenario.appending 3
      (graph Scenario.ascii_only_lower
         (Scenario.replying (py " Damp"))
         (Scenario.replying (py "Wipe the mould off and air the room.")))
      (Scenario.user_says "There's black mould on my bathroom ceiling"))
    = [py "detect_intent"; agent]
    /\ In agent specialists.
Proof.
  destruct (@graph_run_shape Scenario.ascii_only_lower
              (Scenario.replying (py " Damp"))
              (Scenario.replying (py "Wipe the mould off and air the room."))
              Scenario.appending
              3 empty_state
              (Scenario.user_says "There's black mould on my bathroom ceiling")
              (le_n 3)) as [H _].
  unfold invoke.
  destruct (resume _ _ _ _ _) as [trace final | trace | trace].
  - destruct H as (update & agent & _ & _ & Htrace & Hin & _).
    exists agent. split; assumption.
  - destruct H as [[H _] | (update & agent & prompt & _ & _ & H & _)];
      discriminate H.
  - destruct H.
Defined.

Example run_damp :
  trace_of (invoke Scenario.appending 3
    (graph Scenario.ascii_only_lower (Scenario.replying (py " Damp"))
       (Scenario.replying (py "Wipe the mould off and air the room.")))
    (Scenario.user_says "There's black mould on my bathroom ceiling"))
  = [py "detect_intent"; py "damp_agent"].
Proof. reflexivity. Qed.

Example run_classifier_fails :
  invoke Scenario.appending 3
    (graph Scenario.ascii_only_lower Scenario.failing (Scenario.replying (py "ok")))
    (Scenario.user_says "My boiler keeps cutting out")
  = Raised [py "detect_intent"].
Proof. reflexivity. Qed.

(** A classifier model that answers with a list of content blocks makes
    [detect_intent] raise, and the run ends there. *)
Example run_classifier_blocks :
  invoke Scenario.appending 3
    (graph Scenario.ascii_only_lower (Scenario.replying_blocks [py "heating"])
       (Scenario.replying (py "ok")))
    (Scenario.user_says "My boiler keeps cutting out")
  = Raised [py "detect_intent"].
Proof. reflexivity. Qed.

Example run_out_of_fuel :
  invoke Scenario.appending 2
    (graph Scenario.ascii_only_lower (Scenario.replying (py "heating"))
       (Scenario.replying (py "Bleed the radiators.")))
    (Scenario.user_says "My boiler keeps cutting out")
  = OutOfFuel [py "detect_intent"; py "heating_agent"].
Proof. reflexivity. Qed.

(** The keys of the input other than [messages] are not read: a caller
    who passes [issue_type] or [current_agent] gets the run of one who
    does not. *)
Example run_drops_other_input_keys :
  invoke Scenario.appending 3
    (graph Scenario.ascii_only_lower (Scenario.replying (py "damp"))
       (Scenario.replying (py "Air the room.")))
    {| d_messages := Some [HumanMessage (Text (py "Mould on the ceiling"))];
       d_issue_type := Some (Some (py "heating"));
       d_current_agent := Some (Some (py "heating_agent")) |}
  = Finished [py "detect_intent"; py "damp_agent"]
      {| d_messages := Some [ HumanMessage (Text (py "Mould on the ceiling"));
                              AIMessage (Text (py "Air the room.")) [] ];
         d_issue_type := Some (Some (py "damp"));
         d_current_agent := None |}.
Proof. reflexivity. Qed.

End GraphFacts.

(** ** The HTTP adapter *)

Module AdapterFacts.
Import HousingGraph OpenAICompat.

Lemma convert_fold (msgs : list ChatMessage) (acc : list BaseMessage) :
  fold_left
    (fun converted msg =>
       if PyStr.eqb (role msg) (py "system") then
         converted ++ [SystemMessage (Text (OpenAICompat.content msg))]
       else if PyStr.eqb (role msg) (py "user") then
         converted ++ [HumanMessage (Text (OpenAICompat.content msg))]
       else if PyStr.eqb (role msg) (py "assistant") then
         converted ++ [AIMessage (Text (OpenAICompat.content msg)) []]
       else converted)
    msgs acc
  = acc ++ flat_map converted_message msgs.
Proof.
  revert acc. induction msgs as [|msg rest IH]; intros acc; simpl.
  - now rewrite app_nil_r.
  - rewrite IH. unfold converted_message.
    destruct (PyStr.eqb (role msg) (py "system")).
    { now rewrite <- app_assoc. }
    destruct (PyStr.eqb (role msg) (py "user")).
    { now rewrite <- app_assoc. }
    destruct (PyStr.eqb (role msg) (py "assistant")).
    { now rewrite <- app_assoc. }
    reflexivity.
Qed.

Lemma converted_message_length (msg : ChatMessage) :
  List.length (converted_message msg) <= 1.
Proof.
  unfold converted_message.
  repeat match goal with |- context [if ?b then _ else _] => destruct b end;
    simpl; lia.
Qed.

(** C7.  The conversion is the concatenation, in the order of the input,
    of what each message becomes: a system, user or assistant message
    becomes the one [SystemMessage], [HumanMessage] or [AIMessage] with
    the same content, a message of any other role becomes nothing.  It
    does not raise, and the output is never longer than the input. *)
Theorem convert_messages_spec (msgs : list ChatMessage) :
  _convert_messages_to_langgraph_format msgs
    = flat_map
        (fun msg =>
           if PyStr.eqb (role msg) (py "system")
           then [SystemMessage (Text (OpenAICompat.content msg))]
           else if PyStr.eqb (role msg) (py "user")
           then [HumanMessage (Text (OpenAICompat.content msg))]
           else if PyStr.eqb (role msg) (py "assistant")
           then [AIMessage (Text (OpenAICompat.content msg)) []]
           else [])
        msgs
  /\ List.length (_convert_messages_to_langgraph_format msgs) <= List.length msgs.
Proof.
  unfold _convert_messages_to_langgraph_format. rewrite convert_fold. simpl.
  split; [reflexivity|].
  induction msgs as [|msg rest IH]; simpl; [lia|].
  rewrite length_app. pose proof (converted_message_length msg). lia.
Qed.

Example convert_drops_tool_role :
  _convert_messages_to_langgraph_format
    (messages (Scenario.ask "uk_housing" "My boiler keeps cutting out" false None))
  = [ SystemMessage (Text (py "Be brief."));
      HumanMessage (Text (py "My boiler keeps cutting out")) ].
Proof. reflexivity. Qed.

Section Adapter.

Variable get_graph : pystr -> option Graph.
Variable uuid_source : nat -> pystr.
Variable clock : nat -> Z.
Variable model_dump_json : ChatCompletionStreamResponse -> pystr.
Variable str_messages : list ChatMessage -> pystr.
Variable validation_error : list pystr -> pystr.

Local Abbreviation create_chat_completion' :=
  (create_chat_completion get_graph uuid_source clock model_dump_json str_messages
     validation_error).

(** Case analysis on the content the non-streaming adapter is about to
    return. *)
Ltac case_content :=
  match goal with
  | |- context [match ?c with Text _ => _ | Blocks _ => _ end] => destruct c
  end.

(** C9.  When the registry does not know the id, chat completion and
    model detail both answer with the HTTP exception of status 404 whose
    detail is [Graph/Model '<id>' not found], which contains the id; the
    world is left as it was, so no graph was called. *)
Theorem unknown_model_is_404 (graph_id : pystr) :
  get_graph graph_id = None ->
  let not_found :=
    {| status_code := 404;
       detail := py "Graph/Model '" ++ graph_id ++ py "' not found" |} in
  (forall request user w,
      model request = graph_id ->
      create_chat_completion' request user w = (inl not_found, w))
  /\ (forall w, get_model get_graph clock graph_id w = (inl not_found, w))
  /\ (exists before after, detail not_found = before ++ graph_id ++ after).
Proof.
  intros Hnone not_found. split; [|split].
  - intros request user w Hmodel.
    unfold create_chat_completion, _get_graph_or_404, bind, ret.
    rewrite Hmodel, Hnone. reflexivity.
  - intros w. unfold get_model, _get_graph_or_404, bind, ret.
    rewrite Hnone. reflexivity.
  - exists (py "Graph/Model '"), (py "' not found"). reflexivity.
Qed.

(** C10.  When the graph returns a final state whose message list is
    empty (or missing), the non-streaming adapter returns a response and
    no HTTP exception: one choice, the assistant message
    [No response generated], finish reason [stop]. *)
Theorem empty_result_placeholder (request : ChatCompletionRequest) (graph : Graph)
    (thread_id : pystr) (user : User) (w : World) (result : ResultState) :
  ainvoke graph
    {| input_messages := _convert_messages_to_langgraph_format (messages request) |}
    {| config_thread_id := thread_id; config_user_id := identity user |}
    = Returns result ->
  result_messages result = Some [] \/ result_messages result = None ->
  exists response,
    fst (_chat_completion_non_streaming uuid_source clock str_messages
           validation_error request graph thread_id user w) = inr response
    /\ choices response =
         [ {| index := 0;
              message := {| role := py "assistant";
                            content := py "No response generated" |};
              finish_reason := py "stop" |} ].
Proof.
  intros Hinvoke Hempty.
  unfold _chat_completion_non_streaming, bind, log_call, uuid4, timestamp_now, ret.
  cbn -[py _convert_messages_to_langgraph_format].
  rewrite Hinvoke.
  destruct Hempty as [-> | ->]; cbn -[py]; eexists; split; reflexivity.
Qed.

(** C5.  A request with [stream=false] is answered by an HTTP exception
    (404 or 500) or by a response whose [object] is [chat.completion] and
    which has exactly one choice, with index 0, an assistant message and
    finish reason [stop]; never by a stream. *)
Theorem non_streaming_single_choice (request : ChatCompletionRequest) (user : User)
    (w : World) :
  stream request = false ->
  match fst (create_chat_completion' request user w) with
  | inl e => status_code e = 404%Z \/ status_code e = 500%Z
  | inr (Json response) =>
      object response = py "chat.completion"
      /\ exists text,
           choices response =
             [ {| index := 0;
                  message := {| role := py "assistant"; content := text |};
                  finish_reason := py "stop" |} ]
  | inr (Streaming _) => False
  end.
Proof.
  intros Hstream.
  unfold create_chat_completion, _get_graph_or_404, bind, ret.
  destruct (get_graph (model request)) as [graph|]; [|left; reflexivity].
  rewrite Hstream.
  destruct (thread_id request) as [[|c cs]|];
    unfold _chat_completion_non_streaming, bind, log_call, uuid4, timestamp_now, ret;
    cbn -[py _convert_messages_to_langgraph_format];
    match goal with |- context [ainvoke ?g ?i ?c] => destruct (ainvoke g i c) end;
    cbn -[py _convert_messages_to_langgraph_format];
    try (right; reflexivity);
    case_content; cbn -[py];
    try (right; reflexivity);
    (split; [reflexivity | eexists; reflexivity]).
Qed.

(** C8.  In a response to a non-streaming request, [prompt_tokens] is the
    length of [str(request.messages)], [completion_tokens] the length of
    the assistant content returned, and [total_tokens] their sum. *)
Theorem usage_is_length_proxy (request : ChatCompletionRequest) (user : User)
    (w w' : World) (response : ChatCompletionResponse) :
  create_chat_completion' request user w = (inr (Json response), w') ->
  exists text,
    choices response =
      [ {| index := 0;
           message := {| role := py "assistant"; content := text |};
           finish_reason := py "stop" |} ]
    /\ prompt_tokens (usage response)
         = Z.of_nat (List.length (str_messages (messages request)))
    /\ completion_tokens (usage response) = Z.of_nat (List.length text)
    /\ total_tokens (usage response)
         = (prompt_tokens (usage response) + completion_tokens (usage response))%Z.
Proof.
  unfold create_chat_completion, _get_graph_or_404, bind, ret.
  destruct (get_graph (model request)) as [graph|]; [|discriminate].
  destruct (stream request).
  { destruct (thread_id request) as [[|c cs]|]; cbn -[py _stream_chat_completion];
      match goal with
      | |- context [_stream_chat_completion ?a ?b ?c ?d ?e ?f ?g ?h] =>
          destruct (_stream_chat_completion a b c d e f g h)
      end; discriminate. }
  destruct (thread_id request) as [[|c cs]|];
    unfold _chat_completion_non_streaming, bind, log_call, uuid4, timestamp_now, ret;
    cbn -[py _convert_messages_to_langgraph_format];
    match goal with |- context [ainvoke ?g ?i ?c] => destruct (ainvoke g i c) end;
    cbn -[py _convert_messages_to_langgraph_format];
    try discriminate;
    case_content; cbn -[py];
    intros H; try discriminate H;
    injection H as H _; subst response;
    eexists; repeat split; reflexivity.
Qed.

Lemma stream_loop_calls (request : ChatCompletionRequest) (events : list Event)
    (full_response : pystr) (w : World) :
  graph_calls (snd (stream_loop uuid_source clock model_dump_json
                      request events full_response w))
  = graph_calls w.
Proof.
  revert full_response w.
  induction events as [|ev rest IH]; intros full_response w; [reflexivity|].
  cbn [stream_loop].
  destruct (event ev) as [ty|]; [|apply IH].
  destruct (data_chunk ev) as [[[[|c cs]|[|b bs]]|]|]; try apply IH;
    (destruct (PyStr.eqb ty (py "on_chat_model_stream")); [|apply IH]);
    try apply IH; try reflexivity.
  unfold bind, uuid4, timestamp_now, ret.
  match goal with
  | |- context [stream_loop ?a ?b ?c ?d ?e ?f ?g] =>
      specialize (IH f g); destruct (stream_loop a b c d e f g) as [r w1]
  end.
  exact IH.
Qed.

(** C6 (amended).  The thread identifier put in the run configuration of
    the one graph call a request causes is the caller's [thread_id] when
    that is a non-empty string; when [thread_id] is missing or the empty
    string it is [thread-] followed by the UUID drawn at that moment, and
    different UUIDs give different identifiers. *)
Theorem thread_id_in_run_config (request : ChatCompletionRequest) (user : User)
    (w : World) (graph : Graph) :
  get_graph (model request) = Some graph ->
  (exists call,
     graph_calls (snd (create_chat_completion' request user w))
       = graph_calls w ++ [call]
     /\ config_thread_id (call_config call) =
          match thread_id request with
          | Some (c :: cs) => c :: cs
          | Some [] | None => py "thread-" ++ uuid_source (uuid_draws w)
          end)
  /\ (forall n m, uuid_source n <> uuid_source m ->
        py "thread-" ++ uuid_source n <> py "thread-" ++ uuid_source m).
Proof.
  intros Hgraph. split.
  2:{ intros n m Hneq E. apply app_inv_head in E. contradiction. }
  unfold create_chat_completion, _get_graph_or_404, bind, ret.
  rewrite Hgraph.
  destruct (stream request).
  - destruct (thread_id request) as [[|c cs]|];
      unfold _stream_chat_completion, bind, log_call, uuid4, timestamp_now, ret;
      cbn -[py _convert_messages_to_langgraph_format stream_loop];
      match goal with
      | |- context [astream_events ?g ?i ?c] =>
          destruct (astream_events g i c) as [events raised]
      end;
      match goal with
      | |- context [stream_loop ?a ?b ?c ?d ?e ?f ?g] =>
          pose proof (stream_loop_calls d e f g) as Hloop;
          destruct (stream_loop a b c d e f g) as [[[full lines] failed] w1]
      end;
      cbn in Hloop;
      destruct failed; destruct raised; cbn -[py]; rewrite Hloop;
      eexists; split; reflexivity.
  - destruct (thread_id request) as [[|c cs]|];
      unfold _chat_completion_non_streaming, bind, log_call, uuid4, timestamp_now, ret;
      cbn -[py _convert_messages_to_langgraph_format];
      match goal with |- context [ainvoke ?g ?i ?c] => destruct (ainvoke g i c) end;
      cbn -[py]; try case_content; cbn -[py]; eexists; split; reflexivity.
Qed.

(** What the loop yields: one line per string token up to the first
    token that is no string; the loop fails, with the [TypeError] of
    [str + list], exactly when there is such a token. *)
Lemma stream_loop_lines (request : ChatCompletionRequest) (events : list Event)
    (full_response : pystr) (w : World) :
  exists deltas,
    snd (fst (fst (stream_loop uuid_source clock model_dump_json
                     request events full_response w)))
      = map (sse_line model_dump_json) deltas
    /\ Forall2
         (fun chunk token =>
            chunk_object chunk = py "chat.completion.chunk"
            /\ chunk_choices chunk =
                 [ {| stream_index := 0;
                      delta := {| role := py "assistant"; content := token |};
                      stream_finish_reason := None |} ])
         deltas (token_contents events)
    /\ snd (fst (stream_loop uuid_source clock model_dump_json
                   request events full_response w))
         = (if tokens_are_text events then None else Some str_plus_list_error).
Proof.
  revert full_response w.
  induction events as [|ev rest IH]; intros full_response w.
  { exists []. split; [reflexivity|]. split; [constructor | reflexivity]. }
  cbn [stream_loop token_contents tokens_are_text forallb]. unfold token_of.
  destruct (event ev) as [ty|]; [|apply IH].
  destruct (data_chunk ev) as [[[[|c cs]|[|b bs]]|]|]; try apply IH;
    (destruct (PyStr.eqb ty (py "on_chat_model_stream")); [|apply IH]);
    try apply IH.
  - unfold bind, uuid4, timestamp_now, ret.
    match goal with
    | |- context [stream_loop ?a ?b ?c ?d ?e ?f ?g] =>
        destruct (IH f g) as (deltas & Hlines & Hshape & Hfailed);
        destruct (stream_loop a b c d e f g) as [[[full lines] failed] w1]
    end.
    cbn [fst snd andb] in *.
    eexists (_ :: deltas). split; [|split].
    + cbn [map]. rewrite Hlines. reflexivity.
    + constructor; [split; reflexivity | exact Hshape].
    + exact Hfailed.
  - exists []. split; [reflexivity|]. split; [constructor | reflexivity].
Qed.

(** A request with [stream=true] for a known graph is answered by the
    event stream whose body is what [_stream_chat_completion] yields. *)
Lemma streaming_request_body (request : ChatCompletionRequest) (user : User)
    (w : World) (graph : Graph) :
  get_graph (model request) = Some graph ->
  stream request = true ->
  exists thread_id w1,
    fst (create_chat_completion' request user w)
    = inr (Streaming
        {| body := fst (_stream_chat_completion uuid_source clock model_dump_json
                          request graph thread_id user w1);
           media_type := py "text/event-stream";
           headers := [ (py "Cache-Control", py "no-cache");
                        (py "Connection", py "keep-alive");
                        (py "X-Accel-Buffering", py "no") ] |}).
Proof.
  intros Hgraph Hstream.
  unfold create_chat_completion, _get_graph_or_404, bind, ret.
  rewrite Hgraph, Hstream.
  destruct (thread_id request) as [[|c cs]|]; unfold uuid4;
    match goal with
    | |- context [_stream_chat_completion ?a ?b ?c ?d ?e ?f ?g ?h] =>
        exists f, h; destruct (_stream_chat_completion a b c d e f g h)
    end; reflexivity.
Qed.

(** C4 (amended).  When the event stream of the graph ends without
    raising and the content of every model-token event is a string, the
    lines the streaming adapter yields are: one line per model-token
    event, in the order of the events, each the SSE rendering of a chunk
    with [object] [chat.completion.chunk] whose one choice carries the
    token as delta and has no finish reason; then one line for a chunk
    whose choice has finish reason [stop]; then the line [data: [DONE]]
    followed by two newlines. *)
Theorem stream_is_deltas_stop_done (request : ChatCompletionRequest) (graph : Graph)
    (thread_id : pystr) (user : User) (w : World) (events : list Event) :
  astream_events graph
    {| input_messages := _convert_messages_to_langgraph_format (messages request) |}
    {| config_thread_id := thread_id; config_user_id := identity user |}
    = (events, None) ->
  tokens_are_text events = true ->
  exists deltas final,
    fst (_stream_chat_completion uuid_source clock model_dump_json
           request graph thread_id user w)
      = map (sse_line model_dump_json) deltas
        ++ [sse_line model_dump_json final; py "data: [DONE]" ++ [10%N; 10%N]]
    /\ Forall2
         (fun chunk token =>
            chunk_object chunk = py "chat.completion.chunk"
            /\ chunk_choices chunk =
                 [ {| stream_index := 0;
                      delta := {| role := py "assistant"; content := token |};
                      stream_finish_reason := None |} ])
         deltas (token_contents events)
    /\ chunk_object final = py "chat.completion.chunk"
    /\ chunk_choices final =
         [ {| stream_index := 0;
              delta := {| role := py "assistant"; content := [] |};
              stream_finish_reason := Some (py "stop") |} ].
Proof.
  intros Hevents Htext.
  unfold _stream_chat_completion, bind, log_call, ret.
  cbn -[py _convert_messages_to_langgraph_format stream_loop uuid4 timestamp_now].
  rewrite Hevents.
  match goal with
  | |- context [stream_loop ?a ?b ?c ?d ?e ?f ?g] =>
      destruct (stream_loop_lines d e f g) as (deltas & Hlines & Hshape & Hfailed);
      destruct (stream_loop a b c d e f g) as [[[full lines] failed] w1]
  end.
  cbn [fst snd] in Hlines, Hfailed |- *.
  rewrite Htext in Hfailed. subst failed.
  unfold uuid4, timestamp_now. cbn -[py].
  exists deltas. eexists. rewrite Hlines.
  split; [reflexivity|]. split; [exact Hshape|]. split; reflexivity.
Qed.

End Adapter.

(** *** The theorems at the scenario's collaborators *)

Local Abbreviation scenario_completion :=
  (create_chat_completion Scenario.registry Scenario.uuids Scenario.ticks
     Scenario.dump_content Scenario.contents_of Scenario.not_a_string).

Lemma unknown_model_is_404_witness :
  scenario_completion (Scenario.ask "nonexistent-graph" "Hello" false None)
    Scenario.tenant Scenario.world0
  = (inl {| status_code := 404;
            detail := py "Graph/Model 'nonexistent-graph' not found" |},
     Scenario.world0).
Proof.
  destruct (@unknown_model_is_404 Scenario.registry Scenario.uuids Scenario.ticks
              Scenario.dump_content Scenario.contents_of Scenario.not_a_string
              (py "nonexistent-graph") eq_refl) as [H _].
  exact (H (Scenario.ask "nonexistent-graph" "Hello" false None)
           Scenario.tenant Scenario.world0 eq_refl).
Defined.

Lemma empty_result_placeholder_witness :
  exists response,
    fst (_chat_completion_non_streaming Scenario.uuids Scenario.ticks
           Scenario.contents_of Scenario.not_a_string
           (Scenario.ask "silent" "Hello" false None)
           Scenario.silent_graph (py "thread-1") Scenario.tenant Scenario.world0)
      = inr response
    /\ choices response =
         [ {| index := 0;
              message := {| role := py "assistant";
                            content := py "No response generated" |};
              finish_reason := py "stop" |} ].
Proof.
  exact (@empty_result_placeholder Scenario.uuids Scenario.ticks
           Scenario.contents_of Scenario.not_a_string
           (Scenario.ask "silent" "Hello" false None)
           Scenario.silent_graph (py "thread-1") Scenario.tenant Scenario.world0
           {| result_messages := Some [] |} eq_refl (or_introl eq_refl)).
Defined.

Lemma non_streaming_single_choice_witness :
  match fst (scenario_completion
               (Scenario.ask "uk_housing" "My boiler keeps cutting out" false None)
               Scenario.tenant Scenario.world0) with
  | inl e => status_code e = 404%Z \/ status_code e = 500%Z
  | inr (Json response) =>
      object response = py "chat.completion"
      /\ exists text,
           choices response =
             [ {| index := 0;
                  message := {| role := py "assistant"; content := text |};
                  finish_reason := py "stop" |} ]
  | inr (Streaming _) => False
  end.
Proof.
  exact (@non_streaming_single_choice Scenario.registry Scenario.uuids Scenario.ticks
           Scenario.dump_content Scenario.contents_of Scenario.not_a_string
           (Scenario.ask "uk_housing" "My boiler keeps cutting out" false None)
           Scenario.tenant Scenario.world0 eq_refl).
Defined.

Lemma usage_is_length_proxy_witness :
  exists response w',
    scenario_completion
      (Scenario.ask "uk_housing" "My boiler keeps cutting out" false None)
      Scenario.tenant Scenario.world0
    = (inr (Json response), w')
    /\ prompt_tokens (usage response) = 43%Z
    /\ total_tokens (usage response)
         = (prompt_tokens (usage response) + completion_tokens (usage response))%Z.
Proof.
  remember (scenario_completion
              (Scenario.ask "uk_housing" "My boiler keeps cutting out" false None)
              Scenario.tenant Scenario.world0) as outcome eqn:E.
  symmetry in E.
  destruct outcome as [[e | [response | sr]] w']; try discriminate E.
  destruct (usage_is_length_proxy _ _ _ _ _ _ _ _ _ E) as (text & _ & Hp & _ & Ht).
  exists response, w'. repeat split; assumption.
Defined.

Lemma thread_id_in_run_config_witness :
  exists call,
    graph_calls
      (snd (scenario_completion
              (Scenario.ask "uk_housing" "And the radiators?" true
                 (Some (py "thread-123")))
              Scenario.tenant Scenario.world0))
      = [call]
    /\ config_thread_id (call_config call) = py "thread-123".
Proof.
  destruct (@thread_id_in_run_config Scenario.registry Scenario.uuids Scenario.ticks
              Scenario.dump_content Scenario.contents_of Scenario.not_a_string
              (Scenario.ask "uk_housing" "And the radiators?" true
                 (Some (py "thread-123")))
              Scenario.tenant Scenario.world0 Scenario.answering_graph eq_refl)
    as [H _].
  exact H.
Defined.

(** C6 as stated fails for a caller who supplies the empty string: the
    request carries [thread_id = ""], and the run configuration gets a
    minted identifier instead of it. *)
Lemma empty_thread_id_is_replaced :
  thread_id (Scenario.ask "uk_housing" "My boiler keeps cutting out" false (Some (py "")))
    = Some (py "")
  /\ exists call,
       graph_calls
         (snd (scenario_completion
                 (Scenario.ask "uk_housing" "My boiler keeps cutting out" false
                    (Some (py "")))
                 Scenario.tenant Scenario.world0))
         = [call]
       /\ config_thread_id (call_config call)
            = py "thread-00000000-0000-4000-8000-000000000000"
       /\ config_thread_id (call_config call) <> py "".
Proof.
  split; [reflexivity|].
  eexists. split; [reflexivity|]. split; [reflexivity | discriminate].
Qed.

Lemma stream_is_deltas_stop_done_witness :
  exists deltas final,
    fst (_stream_chat_completion Scenario.uuids Scenario.ticks Scenario.dump_content
           (Scenario.ask "uk_housing" "My boiler keeps cutting out" true None)
           Scenario.answering_graph (py "thread-1") Scenario.tenant Scenario.world0)
      = map (sse_line Scenario.dump_content) deltas
        ++ [sse_line Scenario.dump_content final; py "data: [DONE]" ++ [10%N; 10%N]]
    /\ List.length deltas = 2.
Proof.
  destruct (@stream_is_deltas_stop_done Scenario.uuids Scenario.ticks
              Scenario.dump_content
              (Scenario.ask "uk_housing" "My boiler keeps cutting out" true None)
              Scenario.answering_graph (py "thread-1") Scenario.tenant
              Scenario.world0 _ eq_refl eq_refl)
    as (deltas & final & Hlines & Hshape & _).
  exists deltas, final. split; [exact Hlines|].
  apply Forall2_length in Hshape. exact Hshape.
Defined.

(** C4 as stated fails when a model-token chunk carries a list as
    content: the event stream of the graph ends without raising, and the
    adapter yields the chunk of the token before, then the error line of
    the [TypeError] of [full_response += content]; no chunk with finish
    reason [stop] and no [DONE] line. *)
Lemma stream_with_list_content_breaks :
  snd (astream_events Scenario.blocks_graph
         {| input_messages :=
              _convert_messages_to_langgraph_format
                (messages (Scenario.ask "blocks" "My boiler keeps cutting out" true None)) |}
         {| config_thread_id := py "thread-1";
            config_user_id := identity Scenario.tenant |})
    = None
  /\ fst (_stream_chat_completion Scenario.uuids Scenario.ticks Scenario.dump_content
            (Scenario.ask "blocks" "My boiler keeps cutting out" true None)
            Scenario.blocks_graph (py "thread-1") Scenario.tenant Scenario.world0)
     = [ py "data: heating" ++ [10%N; 10%N];
         py "data: {'error': {'message': 'can only concatenate str (not "
           ++ [34%N] ++ py "list" ++ [34%N] ++ py ") to str'}}" ++ [10%N; 10%N] ]
  /\ ~ In (py "data: [DONE]" ++ [10%N; 10%N])
         (fst (_stream_chat_completion Scenario.uuids Scenario.ticks
                 Scenario.dump_content
                 (Scenario.ask "blocks" "My boiler keeps cutting out" true None)
                 Scenario.blocks_graph (py "thread-1") Scenario.tenant
                 Scenario.world0)).
Proof.
  split; [reflexivity|]. split; [reflexivity|].
  intros [H|[H|[]]]; discriminate H.
Qed.

Example stream_lines :
  fst (_stream_chat_completion Scenario.uuids Scenario.ticks Scenario.dump_content
         (Scenario.ask "uk_housing" "My boiler keeps cutting out" true None)
         Scenario.answering_graph (py "thread-1") Scenario.tenant Scenario.world0)
  = [ py "data: Bleed " ++ [10%N; 10%N];
      py "data: the radiators." ++ [10%N; 10%N];
      py "data: " ++ [10%N; 10%N];
      py "data: [DONE]" ++ [10%N; 10%N] ].
Proof. reflexivity. Qed.

End AdapterFacts.

(* ====================================================================== *)
(** * Further properties of the graph *)
(* ====================================================================== *)

Module RoutingFacts.
Import HousingGraph.

Lemma lstrip_whitespace_app (ws s : pystr) :
  forallb isspace ws = true -> lstrip (ws ++ s) = lstrip s.
Proof.
  induction ws as [|c ws IH]; intros H; [reflexivity|].
  simpl in H. apply andb_true_iff in H as [Hc Hws].
  simpl. rewrite Hc. now apply IH.
Qed.

Lemma lstrip_app_whitespace (s ws : pystr) :
  forallb isspace ws = true ->
  lstrip (s ++ ws) = [] /\ lstrip s = []
  \/ lstrip (s ++ ws) = lstrip s ++ ws /\ lstrip s <> [].
Proof.
  intros Hws. induction s as [|c s IH]; simpl.
  - left. split; [|reflexivity].
    rewrite <- (app_nil_r ws). rewrite lstrip_whitespace_app by assumption.
    reflexivity.
  - destruct (isspace c); [exact IH|].
    right. split; [reflexivity | discriminate].
Qed.

Lemma forallb_isspace_rev (ws : pystr) :
  forallb isspace (rev ws) = forallb isspace ws.
Proof.
  induction ws as [|c ws IH]; [reflexivity|].
  simpl. rewrite forallb_app, IH. simpl. rewrite andb_true_r. apply andb_comm.
Qed.

Lemma rstrip_app_whitespace (s ws : pystr) :
  forallb isspace ws = true -> rstrip (s ++ ws) = rstrip s.
Proof.
  intros H. unfold rstrip. rewrite rev_app_distr.
  rewrite lstrip_whitespace_app; [reflexivity|].
  now rewrite forallb_isspace_rev.
Qed.

(** Blanks around a string do not change what [strip] returns. *)
Lemma strip_padding (before s after : pystr) :
  forallb isspace before = true -> forallb isspace after = true ->
  strip (before ++ s ++ after) = strip s.
Proof.
  intros Hb Ha. unfold strip.
  rewrite lstrip_whitespace_app by assumption.
  destruct (@lstrip_app_whitespace s after Ha) as [[E1 E2] | [E1 _]].
  - now rewrite E1, E2.
  - rewrite E1. now apply rstrip_app_whitespace.
Qed.

Lemma detect_intent_inv (unicode_lower : list N -> N -> list N -> list N)
    (intent_llm : ChatModel) (state : State) (update : StateDict) :
  detect_intent unicode_lower intent_llm state = Some update ->
  exists response reply t,
    intent_llm (SystemMessage (Text intent_prompt) :: state_messages state)
      = Some response
    /\ content response = Text reply
    /\ update = {| d_messages := None; d_issue_type := Some (Some t);
                   d_current_agent := None |}
    /\ In t valid_types
    /\ t = (if mem (lower unicode_lower (strip reply)) valid_types
            then lower unicode_lower (strip reply)
            else py "general").
Proof.
  unfold detect_intent. cbv zeta.
  destruct (intent_llm (SystemMessage (Text intent_prompt) :: state_messages state))
    as [response|]; [|discriminate].
  destruct (content response) as [reply|blocks] eqn:Hcontent; [|discriminate].
  intros H.
  apply (f_equal (fun o => match o with Some u => u | None => update end)) in H.
  cbv beta iota in H. subst update.
  exists response, reply. eexists.
  split; [reflexivity|]. split; [exact Hcontent|]. split; [reflexivity|].
  split; [|reflexivity].
  destruct (mem _ valid_types) eqn:E.
  - now apply mem_In.
  - right; right; right; left; reflexivity.
Qed.

Lemma lower_valid_type (unicode_lower : list N -> N -> list N -> list N) (t : pystr) :
  In t valid_types -> lower unicode_lower (strip t) = t.
Proof.
  intros [E|[E|[E|[E|[]]]]]; subst t;
    match goal with
    | |- lower _ (strip ?x) = _ =>
        change (strip x) with x; unfold lower;
        rewrite (@lower_from_ascii unicode_lower [] x eq_refl)
    end; reflexivity.
Qed.

(** X1.  Blanks before and after the reply of the classifier model do not
    change the issue type: two replies that differ only by such padding
    give the same update. *)
Theorem detect_intent_ignores_padding
    (unicode_lower : list N -> N -> list N -> list N)
    (llm1 llm2 : ChatModel) (state : State) (r1 r2 : BaseMessage)
    (before reply after : pystr) :
  llm1 (SystemMessage (Text intent_prompt) :: state_messages state) = Some r1 ->
  llm2 (SystemMessage (Text intent_prompt) :: state_messages state) = Some r2 ->
  forallb isspace before = true ->
  forallb isspace after = true ->
  content r2 = Text reply ->
  content r1 = Text (before ++ reply ++ after) ->
  detect_intent unicode_lower llm1 state = detect_intent unicode_lower llm2 state.
Proof.
  intros H1 H2 Hb Ha Hc2 Hc1. unfold detect_intent.
  rewrite H1, H2, Hc1, Hc2, (@strip_padding before reply after Hb Ha). reflexivity.
Qed.

Lemma detect_intent_ignores_padding_witness :
  detect_intent Scenario.ascii_only_lower
    (Scenario.replying ([9; 160] ++ py "Repairs" ++ [10; 8232])%N)
    (AsDict (Scenario.user_says "The tap is dripping"))
  = detect_intent Scenario.ascii_only_lower (Scenario.replying (py "Repairs"))
      (AsDict (Scenario.user_says "The tap is dripping")).
Proof.
  exact (@detect_intent_ignores_padding Scenario.ascii_only_lower
           (Scenario.replying ([9; 160] ++ py "Repairs" ++ [10; 8232])%N)
           (Scenario.replying (py "Repairs"))
           (AsDict (Scenario.user_says "The tap is dripping"))
           (AIMessage (Text ([9; 160] ++ py "Repairs" ++ [10; 8232])%N) [])
           (AIMessage (Text (py "Repairs")) [])
           [9; 160]%N (py "Repairs") [10; 8232]%N
           eq_refl eq_refl eq_refl eq_refl eq_refl eq_refl).
Defined.

(** X2.  ASCII replies that differ only in the case of their letters give the
    same issue type. *)
Theorem detect_intent_ignores_case
    (unicode_lower : list N -> N -> list N -> list N)
    (llm1 llm2 : ChatModel) (state : State) (r1 r2 : BaseMessage)
    (reply1 reply2 : pystr) :
  llm1 (SystemMessage (Text intent_prompt) :: state_messages state) = Some r1 ->
  llm2 (SystemMessage (Text intent_prompt) :: state_messages state) = Some r2 ->
  content r1 = Text reply1 ->
  content r2 = Text reply2 ->
  is_ascii reply1 = true ->
  is_ascii reply2 = true ->
  map ascii_lower reply1 = map ascii_lower reply2 ->
  detect_intent unicode_lower llm1 state = detect_intent unicode_lower llm2 state.
Proof.
  intros H1 H2 C1 C2 A1 A2 Hc. unfold detect_intent. rewrite H1, H2, C1, C2.
  assert (E : lower unicode_lower (strip reply1)
              = lower unicode_lower (strip reply2)).
  { rewrite !lower_strip_ascii by assumption.
    unfold lower.
    rewrite (@lower_from_ascii unicode_lower [] _ A1).
    rewrite (@lower_from_ascii unicode_lower [] _ A2).
    now rewrite Hc. }
  rewrite E. reflexivity.
Qed.

Lemma detect_intent_ignores_case_witness :
  detect_intent Scenario.ascii_only_lower (Scenario.replying (py "DaMp"))
    (AsDict (Scenario.user_says "There is mould on the ceiling"))
  = detect_intent Scenario.ascii_only_lower (Scenario.replying (py "damp"))
      (AsDict (Scenario.user_says "There is mould on the ceiling")).
Proof.
  exact (@detect_intent_ignores_case Scenario.ascii_only_lower
           (Scenario.replying (py "DaMp")) (Scenario.replying (py "damp"))
           (AsDict (Scenario.user_says "There is mould on the ceiling"))
           (AIMessage (Text (py "DaMp")) []) (AIMessage (Text (py "damp")) [])
           (py "DaMp") (py "damp")
           eq_refl eq_refl eq_refl eq_refl eq_refl eq_refl eq_refl).
Defined.

(** X3.  The issue type [detect_intent] writes is a fixed point of the
    classification: a model that replies with exactly that issue type is
    classified as the same issue type, on any state. *)
Theorem detect_intent_fixed_point
    (unicode_lower : list N -> N -> list N -> list N)
    (intent_llm : ChatModel) (state state' : State) (update : StateDict) (t : pystr) :
  detect_intent unicode_lower intent_llm state = Some update ->
  d_issue_type update = Some (Some t) ->
  detect_intent unicode_lower (fun _ => Some (AIMessage (Text t) [])) state'
    = Some update.
Proof.
  intros H Ht.
  destruct (detect_intent_inv _ _ _ H) as (response & reply & t' & _ & _ & Hu & Hin & _).
  subst update.
  simpl in Ht. injection Ht as ->.
  unfold detect_intent. cbn [content].
  rewrite (lower_valid_type unicode_lower Hin).
  apply mem_In in Hin. rewrite Hin. reflexivity.
Qed.

Lemma detect_intent_fixed_point_witness :
  detect_intent Scenario.ascii_only_lower
    (fun _ => Some (AIMessage (Text (py "general")) []))
    (AsObject {| messages := []; issue_type := None; current_agent := None |})
  = Some {| d_messages := None; d_issue_type := Some (Some (py "general"));
            d_current_agent := None |}.
Proof.
  exact (@detect_intent_fixed_point Scenario.ascii_only_lower
           (Scenario.replying (py "no idea"))
           (AsDict (Scenario.user_says "qwerty asdf"))
           (AsObject {| messages := []; issue_type := None; current_agent := None |})
           {| d_messages := None; d_issue_type := Some (Some (py "general"));
              d_current_agent := None |}
           (py "general") eq_refl eq_refl).
Defined.

Lemma routing_of_valid_type (t : pystr) :
  In t valid_types ->
  lookup routing t = Some (t ++ py "_agent")
  /\ dict_get routing t (py "general_agent") = t ++ py "_agent".
Proof.
  intros [E|[E|[E|[E|[]]]]]; subst t; split; reflexivity.
Qed.

(** X4.  After classification the dispatch always finds its key: the issue
    type written by [detect_intent] is an entry of the routing table, so
    [route_to_agent] returns that issue type followed by [_agent] and its
    default is not what decides. *)
Theorem route_after_detect_intent
    (unicode_lower : list N -> N -> list N -> list N)
    (intent_llm : ChatModel)
    (add_messages : list BaseMessage -> list BaseMessage -> list BaseMessage)
    (s : StateDict) (update : StateDict) :
  detect_intent unicode_lower intent_llm (AsDict s) = Some update ->
  exists t,
    d_issue_type (apply_update add_messages s update) = Some (Some t)
    /\ lookup routing t = Some (t ++ py "_agent")
    /\ route_to_agent (AsDict (apply_update add_messages s update)) = t ++ py "_agent".
Proof.
  intros H.
  destruct (detect_intent_inv _ _ _ H) as (response & reply & t & _ & _ & Hu & Hin & _).
  subst update.
  exists t. destruct (routing_of_valid_type Hin) as [Hl Hg].
  split; [reflexivity|]. split; [exact Hl|].
  unfold route_to_agent. cbn [apply_update d_issue_type]. exact Hg.
Qed.

Lemma route_after_detect_intent_witness :
  exists t,
    d_issue_type
      (apply_update Scenario.appending
         (Scenario.user_says "My boiler keeps cutting out")
         {| d_messages := None; d_issue_type := Some (Some (py "heating"));
            d_current_agent := None |})
      = Some (Some t)
    /\ lookup routing t = Some (t ++ py "_agent")
    /\ route_to_agent
         (AsDict (apply_update Scenario.appending
            (Scenario.user_says "My boiler keeps cutting out")
            {| d_messages := None; d_issue_type := Some (Some (py "heating"));
               d_current_agent := None |}))
       = t ++ py "_agent".
Proof.
  exact (@route_after_detect_intent Scenario.ascii_only_lower
           (Scenario.replying (py "heating")) Scenario.appending
           (Scenario.user_says "My boiler keeps cutting out")
           {| d_messages := None; d_issue_type := Some (Some (py "heating"));
              d_current_agent := None |}
           eq_refl).
Defined.

Section FinishedRun.

Variable unicode_lower : list N -> N -> list N -> list N.
Variable intent_llm : ChatModel.
Variable agent_llm : ChatModel.
Variable add_messages : list BaseMessage -> list BaseMessage -> list BaseMessage.

Local Abbreviation g := (graph unicode_lower intent_llm agent_llm).

Lemma specialist_persona_node (agent : pystr) :
  In agent specialists ->
  lookup (nodes g) agent = Some (agent_node agent_llm (persona agent)).
Proof.
  intros [E|[E|[E|[E|[]]]]]; subst agent; reflexivity.
Qed.

Lemma agent_of_valid_type (t : pystr) :
  In t valid_types -> In (t ++ py "_agent") specialists.
Proof.
  intros [E|[E|[E|[E|[]]]]]; subst t; simpl; tauto.
Qed.

Lemma agent_node_inv (prompt : pystr) (state : State) (update : StateDict) :
  agent_node agent_llm prompt state = Some update ->
  exists reply,
    agent_llm (SystemMessage (Text prompt) :: state_messages state) = Some reply
    /\ update = {| d_messages := Some [reply]; d_issue_type := None;
                   d_current_agent := None |}.
Proof.
  unfold agent_node. cbv zeta.
  destruct (agent_llm (SystemMessage (Text prompt) :: state_messages state))
    as [reply|]; [|discriminate].
  intros H. exists reply. split; [reflexivity|]. congruence.
Qed.

(** A finished run, step by step: from the state [start] the run began
    in, [detect_intent] returned an update, the specialist named by
    [route_to_agent] on the merged state returned another, and the final
    state is [start] with both merged. *)
Lemma finished_run_steps (fuel : nat) (start : StateDict)
    (trace : list pystr) (final : StateDict) :
  run_from add_messages fuel g START start [] = Finished trace final ->
  exists update agent update2,
    detect_intent unicode_lower intent_llm (AsDict start) = Some update
    /\ agent = route_to_agent (AsDict (apply_update add_messages start update))
    /\ agent_node agent_llm (persona agent)
         (AsDict (apply_update add_messages start update))
         = Some update2
    /\ trace = [py "detect_intent"; agent]
    /\ final = apply_update add_messages
                 (apply_update add_messages start update) update2.
Proof.
  intros Hrun.
  destruct fuel as [|fuel]; [discriminate Hrun|].
  rewrite GraphFacts.run_from_step, GraphFacts.successor_start in Hrun.
  change (PyStr.eqb (py "detect_intent") END) with false in Hrun. cbv iota in Hrun.
  rewrite GraphFacts.detect_intent_node in Hrun.
  destruct (detect_intent unicode_lower intent_llm (AsDict start))
    as [update|] eqn:Hclassify; [|discriminate Hrun].
  destruct fuel as [|fuel]; [discriminate Hrun|].
  rewrite GraphFacts.run_from_step, GraphFacts.successor_detect_intent in Hrun.
  pose proof (DispatchFacts.route_to_agent_specialist
                (AsDict (apply_update add_messages start update))) as Hagent.
  set (agent := route_to_agent (AsDict (apply_update add_messages start update))) in *.
  destruct (GraphFacts.specialist_node unicode_lower intent_llm agent_llm Hagent)
    as [Hend _].
  rewrite Hend, (specialist_persona_node Hagent) in Hrun.
  destruct (agent_node agent_llm (persona agent)
              (AsDict (apply_update add_messages start update)))
    as [update2|] eqn:Hreply; [|discriminate Hrun].
  destruct fuel as [|fuel]; [discriminate Hrun|].
  rewrite GraphFacts.run_from_step in Hrun.
  rewrite (@GraphFacts.successor_specialist unicode_lower intent_llm agent_llm
             _ _ Hagent) in Hrun.
  change (PyStr.eqb END END) with true in Hrun. cbv iota in Hrun.
  exists update, agent, update2.
  injection Hrun as Htrace Hfinal. subst trace final.
  repeat split; try reflexivity. exact Hreply.
Qed.

(** The same in terms of the two models: the classifier's reply on the
    history of [start] is a string that classifies as [t], and the agent
    model's reply to the persona of [t_agent] and that history is the one
    message written. *)
Lemma finished_run_models (fuel : nat) (start : StateDict)
    (trace : list pystr) (final : StateDict) :
  run_from add_messages fuel g START start [] = Finished trace final ->
  exists response text t reply,
    intent_llm (SystemMessage (Text intent_prompt) :: state_messages (AsDict start))
      = Some response
    /\ content response = Text text
    /\ t = (if mem (lower unicode_lower (strip text)) valid_types
            then lower unicode_lower (strip text)
            else py "general")
    /\ In t valid_types
    /\ agent_llm (SystemMessage (Text (persona (t ++ py "_agent")))
                    :: state_messages (AsDict start)) = Some reply
    /\ trace = [py "detect_intent"; t ++ py "_agent"]
    /\ final = {| d_messages :=
                    Some (add_messages (state_messages (AsDict start)) [reply]);
                  d_issue_type := Some (Some t);
                  d_current_agent := d_current_agent start |}.
Proof.
  intros Hrun.
  destruct (finished_run_steps _ _ Hrun)
    as (update & agent & update2 & Hclassify & Hagent & Hreply & Htrace & Hfinal).
  destruct (detect_intent_inv _ _ _ Hclassify)
    as (response & text & t & Hllm & Htext & Hu & Hin & Ht).
  subst update.
  assert (Hroute : agent = t ++ py "_agent").
  { destruct (routing_of_valid_type Hin) as [_ Hget].
    rewrite Hagent. unfold route_to_agent.
    cbn [apply_update d_issue_type]. unfold routing_get. exact Hget. }
  rewrite Hroute in Hreply, Htrace.
  destruct (agent_node_inv _ _ Hreply) as (reply & Hagent_llm & Hu2). subst update2.
  exists response, text, t, reply.
  split; [exact Hllm|]. split; [exact Htext|]. split; [exact Ht|].
  split; [exact Hin|]. split; [exact Hagent_llm|]. split; [exact Htrace|].
  rewrite Hfinal. reflexivity.
Qed.

(** X5.  The final state of a finished run.  The run starts from the
    saved state of the thread (the empty state on a new thread) with the
    messages of the input written into it; of the input nothing but
    [messages] is read.  With [history] the messages of that start state,
    the classifier wrote an issue type [t] among the four, the specialist
    [t_agent] was called and [reply] is what the agent model answered to
    the persona of that specialist followed by [history].  The final
    messages are what the reducer makes of [history] and the one message
    [reply]; [issue_type] is [t] whatever was there before;
    [current_agent] is that of the saved state, since no node writes it
    and the input's is not read. *)
Theorem finished_run_final_state (fuel : nat) (saved input : StateDict)
    (trace : list pystr) (final : StateDict) :
  resume add_messages fuel g saved input = Finished trace final ->
  let start :=
    apply_update add_messages saved
      {| d_messages := d_messages input; d_issue_type := None;
         d_current_agent := None |} in
  let history := state_messages (AsDict start) in
  exists t reply,
    detect_intent unicode_lower intent_llm (AsDict start)
      = Some {| d_messages := None; d_issue_type := Some (Some t);
                d_current_agent := None |}
    /\ In t valid_types
    /\ agent_llm (SystemMessage (Text (persona (t ++ py "_agent"))) :: history)
       = Some reply
    /\ trace = [py "detect_intent"; t ++ py "_agent"]
    /\ final = {| d_messages := Some (add_messages history [reply]);
                  d_issue_type := Some (Some t);
                  d_current_agent := d_current_agent saved |}.
Proof.
  intros Hrun start history. unfold resume in Hrun.
  change (apply_update add_messages saved (input_state input)) with start in Hrun.
  destruct (finished_run_steps _ _ Hrun)
    as (update & agent & update2 & Hclassify & Hagent & Hreply & Htrace & Hfinal).
  destruct (detect_intent_inv _ _ _ Hclassify)
    as (response & text & t & _ & _ & Hu & Hin & _).
  subst update.
  assert (Hroute : agent = t ++ py "_agent").
  { destruct (routing_of_valid_type Hin) as [_ Hget].
    rewrite Hagent. unfold route_to_agent.
    cbn [apply_update d_issue_type]. unfold routing_get. exact Hget. }
  rewrite Hroute in Hreply, Htrace.
  destruct (agent_node_inv _ _ Hreply) as (reply & Hllm & Hu2). subst update2.
  exists t, reply.
  split; [exact Hclassify|]. split; [exact Hin|]. split; [exact Hllm|].
  split; [exact Htrace|]. rewrite Hfinal. reflexivity.
Qed.

(** X6.  Dispatch selects the persona: the node registered under the name
    [route_to_agent] returns is the agent node with the persona of that
    name, and two states dispatched to different specialists are answered
    under different personas. *)
Theorem dispatch_selects_persona (s1 s2 : State) :
  lookup (nodes g) (route_to_agent s1)
    = Some (agent_node agent_llm (persona (route_to_agent s1)))
  /\ (route_to_agent s1 <> route_to_agent s2 ->
      persona (route_to_agent s1) <> persona (route_to_agent s2)).
Proof.
  pose proof (DispatchFacts.route_to_agent_specialist s1) as H1.
  pose proof (DispatchFacts.route_to_agent_specialist s2) as H2.
  split; [now apply specialist_persona_node|].
  destruct H1 as [E1|[E1|[E1|[E1|[]]]]]; rewrite <- E1;
    destruct H2 as [E2|[E2|[E2|[E2|[]]]]]; rewrite <- E2;
    intros Hneq; try (exfalso; apply Hneq; reflexivity);
    intros E; apply pystr_eqb_eq in E; vm_compute in E; discriminate E.
Qed.

(** X7.  Two turns on one thread.  A first run finishes; a second run is
    made on the same thread, so it starts from the final state of the
    first with the new messages written into it.  With [h0] the history
    the first run started from and [h1] what the reducer makes of [h0],
    the first reply and the new messages: the first reply is the agent
    model's answer on [h0]; in the second run the classifier model is
    called on [h1], its reply classifies as [t2], the agent model answers
    on [h1] under the persona of [t2_agent], and the final state holds
    the reducer's merge of [h1] with that second reply and the issue type
    [t2], the one of the first turn being overwritten. *)
Theorem two_turns_accumulate (fuel1 fuel2 : nat) (saved input1 input2 : StateDict)
    (new_messages : list BaseMessage) (trace1 trace2 : list pystr)
    (final1 final2 : StateDict) :
  resume add_messages fuel1 g saved input1 = Finished trace1 final1 ->
  d_messages input2 = Some new_messages ->
  resume add_messages fuel2 g final1 input2 = Finished trace2 final2 ->
  let h0 :=
    state_messages
      (AsDict (apply_update add_messages saved
                 {| d_messages := d_messages input1; d_issue_type := None;
                    d_current_agent := None |})) in
  exists t1 reply1 response2 text2 t2 reply2,
    agent_llm (SystemMessage (Text (persona (t1 ++ py "_agent"))) :: h0) = Some reply1
    /\ let h1 := add_messages (add_messages h0 [reply1]) new_messages in
       intent_llm (SystemMessage (Text intent_prompt) :: h1) = Some response2
       /\ content response2 = Text text2
       /\ t2 = (if mem (lower unicode_lower (strip text2)) valid_types
                then lower unicode_lower (strip text2)
                else py "general")
       /\ agent_llm (SystemMessage (Text (persona (t2 ++ py "_agent"))) :: h1)
          = Some reply2
       /\ trace2 = [py "detect_intent"; t2 ++ py "_agent"]
       /\ final2 = {| d_messages := Some (add_messages h1 [reply2]);
                      d_issue_type := Some (Some t2);
                      d_current_agent := d_current_agent saved |}.
Proof.
  intros Hrun1 Hnew Hrun2 h0. unfold resume in Hrun1, Hrun2.
  destruct (finished_run_models _ _ Hrun1)
    as (response1 & text1 & t1 & reply1 & _ & _ & _ & _ & Hreply1 & _ & Hfinal1).
  destruct (finished_run_models _ _ Hrun2)
    as (response2 & text2 & t2 & reply2 & Hllm2 & Htext2 & Ht2 & _ & Hreply2
        & Htrace2 & Hfinal2).
  assert (Hh1 : state_messages (AsDict (apply_update add_messages final1
                                          (input_state input2)))
                = add_messages (add_messages h0 [reply1]) new_messages).
  { unfold input_state. cbn [apply_update state_messages d_messages].
    rewrite Hnew, Hfinal1. reflexivity. }
  rewrite Hh1 in Hllm2, Hreply2, Hfinal2.
  exists t1, reply1, response2, text2, t2, reply2.
  split; [exact Hreply1|]. cbv zeta.
  split; [exact Hllm2|]. split; [exact Htext2|]. split; [exact Ht2|].
  split; [exact Hreply2|]. split; [exact Htrace2|].
  rewrite Hfinal2. unfold input_state. cbn [apply_update d_current_agent].
  rewrite Hfinal1. reflexivity.
Qed.

End FinishedRun.

Lemma two_turns_accumulate_witness :
  exists t1 reply1 response2 text2 t2 reply2,
    Scenario.replying (py "Bleed the radiators.")
      (SystemMessage (Text (persona (t1 ++ py "_agent")))
         :: [HumanMessage (Text (py "My boiler keeps cutting out"))]) = Some reply1
    /\ Scenario.replying (py "heating")
         (SystemMessage (Text intent_prompt)
            :: ([HumanMessage (Text (py "My boiler keeps cutting out"))] ++ [reply1])
               ++ [HumanMessage (Text (py "It still cuts out"))]) = Some response2
    /\ content response2 = Text text2
    /\ t2 = py "heating"
    /\ reply2 = AIMessage (Text (py "Bleed the radiators.")) []
    /\ Scenario.turn2_final
       = {| d_messages :=
              Some ((([HumanMessage (Text (py "My boiler keeps cutting out"))]
                      ++ [reply1])
                     ++ [HumanMessage (Text (py "It still cuts out"))])
                    ++ [reply2]);
            d_issue_type := Some (Some t2);
            d_current_agent := None |}.
Proof.
  destruct (@two_turns_accumulate Scenario.ascii_only_lower
              (Scenario.replying (py "heating"))
              (Scenario.replying (py "Bleed the radiators."))
              Scenario.appending
              3 3 empty_state
              (Scenario.user_says "My boiler keeps cutting out")
              (Scenario.user_says "It still cuts out")
              [HumanMessage (Text (py "It still cuts out"))]
              [py "detect_intent"; py "heating_agent"]
              [py "detect_intent"; py "heating_agent"]
              Scenario.turn1_final Scenario.turn2_final eq_refl eq_refl eq_refl)
    as (t1 & reply1 & response2 & text2 & t2 & reply2 & Hreply1 & Hllm2 & Htext2
        & Ht2 & Hreply2 & _ & Hfinal2).
  exists t1, reply1, response2, text2, t2, reply2.
  split; [exact Hreply1|]. split; [exact Hllm2|]. split; [exact Htext2|].
  assert (Hresponse : response2 = AIMessage (Text (py "heating")) [])
    by (unfold Scenario.replying in Hllm2; congruence).
  assert (Htext : text2 = py "heating")
    by (rewrite Hresponse in Htext2; cbn [content] in Htext2; congruence).
  split; [rewrite Ht2, Htext; reflexivity|].
  split; [unfold Scenario.replying in Hreply2; congruence | exact Hfinal2].
Defined.

Lemma finished_run_final_state_witness :
  exists t reply,
    In t valid_types
    /\ Scenario.replying (py "Air the room.")
         (SystemMessage (Text (persona (t ++ py "_agent")))
            :: [HumanMessage (Text (py "There is mould on the ceiling"))])
       = Some reply
    /\ {| d_messages := Some [ HumanMessage (Text (py "There is mould on the ceiling"));
                               AIMessage (Text (py "Air the room.")) [] ];
          d_issue_type := Some (Some (py "damp"));
          d_current_agent := None |}
       = {| d_messages :=
              Some ([HumanMessage (Text (py "There is mould on the ceiling"))]
                    ++ [reply]);
            d_issue_type := Some (Some t);
            d_current_agent := None |}.
Proof.
  destruct (@finished_run_final_state Scenario.ascii_only_lower
              (Scenario.replying (py "damp")) (Scenario.replying (py "Air the room."))
              Scenario.appending 3 empty_state
              {| d_messages := Some [HumanMessage (Text (py "There is mould on the ceiling"))];
                 d_issue_type := Some (Some (py "heating"));
                 d_current_agent := Some (Some (py "heating_agent")) |}
              [py "detect_intent"; py "damp_agent"]
              {| d_messages := Some [ HumanMessage (Text (py "There is mould on the ceiling"));
                                      AIMessage (Text (py "Air the room.")) [] ];
                 d_issue_type := Some (Some (py "damp"));
                 d_current_agent := None |}
              eq_refl)
    as (t & reply & _ & Hin & Hreply & _ & Hfinal).
  exists t, reply. split; [exact Hin|]. split; [exact Hreply | exact Hfinal].
Defined.

End RoutingFacts.

(* ====================================================================== *)
(** * Further properties of the HTTP adapter *)
(* ====================================================================== *)

Module EndpointFacts.
Import HousingGraph OpenAICompat.

(** X8.  Conversion distributes over concatenation, so a message appended to
    a request is converted on its own: a further user message adds
    exactly one [HumanMessage] at the end and leaves the rest alone. *)
Theorem convert_messages_app (msgs more : list ChatMessage) (text : pystr) :
  _convert_messages_to_langgraph_format (msgs ++ more)
    = _convert_messages_to_langgraph_format msgs
      ++ _convert_messages_to_langgraph_format more
  /\ _convert_messages_to_langgraph_format
       (msgs ++ [ {| role := py "user"; content := text |} ])
     = _convert_messages_to_langgraph_format msgs ++ [HumanMessage (Text text)].
Proof.
  assert (H : forall a b,
    _convert_messages_to_langgraph_format (a ++ b)
    = _convert_messages_to_langgraph_format a
      ++ _convert_messages_to_langgraph_format b).
  { intros a b. unfold _convert_messages_to_langgraph_format.
    rewrite !AdapterFacts.convert_fold. simpl. apply flat_map_app. }
  split; [apply H|]. rewrite H. reflexivity.
Qed.

Lemma last_item_app {A : Type} (l : list A) (x : A) : last_item (l ++ [x]) = Some x.
Proof.
  induction l as [|y l IH]; [reflexivity|].
  simpl. destruct (l ++ [x]) eqn:E; [destruct l; discriminate E | exact IH].
Qed.

Lemma NoDup_map_on_seq {B : Type} (f : nat -> B) (l : list nat) :
  (forall a b, f a = f b -> a = b) -> NoDup l -> NoDup (map f l).
Proof.
  intros Hinj Hl. induction Hl as [|x l Hx Hl IH]; simpl; constructor.
  - intros Hin. apply in_map_iff in Hin as (y & Hy & Hyl).
    apply Hinj in Hy. subst y. contradiction.
  - exact IH.
Qed.

Section Endpoints.

Variable get_graph : pystr -> option Graph.
Variable uuid_source : nat -> pystr.
Variable clock : nat -> Z.
Variable model_dump_json : ChatCompletionStreamResponse -> pystr.
Variable str_messages : list ChatMessage -> pystr.
Variable validation_error : list pystr -> pystr.
Variable list_graphs : list pystr.

Local Abbreviation completion :=
  (create_chat_completion get_graph uuid_source clock model_dump_json str_messages
     validation_error).

(** The thread identifier [create_chat_completion] settles on. *)
Local Abbreviation chosen_thread request w :=
  (match thread_id request with
   | Some (c :: cs) => c :: cs
   | _ => py "thread-" ++ uuid_source (uuid_draws w)
   end).

(** X9.  A non-streaming request for a known graph is answered with the
    HTTP exception 500 in two cases: the call to the graph raises, or it
    returns a final state whose last message has a list of blocks as
    content, which [ChatMessage] rejects.  The detail is
    [Error processing request: ] followed by the text of the exception.
    In every other case a response is returned: its content is the
    string content of the last message, whatever the kind of that
    message; [str()] of a last element that has no content; the
    placeholder when there is no message. *)
Theorem non_streaming_outcome (request : ChatCompletionRequest) (user : User)
    (w : World) (graph : Graph) :
  get_graph (model request) = Some graph ->
  stream request = false ->
  let answered text :=
    exists response,
      fst (completion request user w) = inr (Json response)
      /\ choices response =
           [ {| index := 0;
                message := {| role := py "assistant"; content := text |};
                finish_reason := py "stop" |} ] in
  let failed e :=
    fst (completion request user w)
      = inl {| status_code := 500;
               detail := py "Error processing request: " ++ e |} in
  match ainvoke graph
          {| input_messages := _convert_messages_to_langgraph_format (messages request) |}
          {| config_thread_id := chosen_thread request w;
             config_user_id := identity user |}
  with
  | Raises e => failed e
  | Returns result =>
      match last_item (match result_messages result with
                       | Some ms => ms
                       | None => []
                       end) with
      | Some (MessageObj last_msg) =>
          match HousingGraph.content last_msg with
          | Text text => answered text
          | Blocks blocks => failed (validation_error blocks)
          end
      | Some (OtherObj str_obj) => answered str_obj
      | None => answered (py "No response generated")
      end
  end.
Proof.
  intros Hgraph Hstream answered failed. unfold answered, failed.
  unfold create_chat_completion, _get_graph_or_404, bind, ret.
  rewrite Hgraph, Hstream.
  destruct (thread_id request) as [[|c cs]|];
    unfold _chat_completion_non_streaming, bind, log_call, uuid4, timestamp_now, ret;
    cbn -[py _convert_messages_to_langgraph_format last_item];
    match goal with
    | |- match ainvoke ?g ?i ?c with _ => _ end =>
        destruct (ainvoke g i c) as [result|e]
    end;
    cbn -[py _convert_messages_to_langgraph_format last_item];
    try reflexivity;
    (destruct (last_item _) as [[last_msg|str_obj]|];
     [destruct (HousingGraph.content last_msg) | |];
     cbn -[py]; try reflexivity; eexists; split; reflexivity).
Qed.

(** What the loop over the events yields and draws: one line per string
    token up to the first token that is no string, whose chunk carries
    the token and the identifier drawn for it. *)
Lemma stream_loop_chunks (request : ChatCompletionRequest) (events : list Event)
    (full_response : pystr) (w : World) :
  exists deltas,
    snd (fst (fst (stream_loop uuid_source clock model_dump_json
                     request events full_response w)))
      = map (sse_line model_dump_json) deltas
    /\ Forall2
         (fun chunk token =>
            chunk_object chunk = py "chat.completion.chunk"
            /\ chunk_choices chunk =
                 [ {| stream_index := 0;
                      delta := {| role := py "assistant"; content := token |};
                      stream_finish_reason := None |} ])
         deltas (token_contents events)
    /\ map chunk_id deltas
         = map (fun k => py "chatcmpl-" ++ uuid_source (uuid_draws w + k))
             (seq 0 (List.length (token_contents events)))
    /\ uuid_draws (snd (stream_loop uuid_source clock model_dump_json
                          request events full_response w))
         = uuid_draws w + List.length (token_contents events)
    /\ snd (fst (stream_loop uuid_source clock model_dump_json
                   request events full_response w))
         = (if tokens_are_text events then None else Some str_plus_list_error).
Proof.
  revert full_response w.
  induction events as [|ev rest IH]; intros full_response w.
  { exists []. cbn. rewrite Nat.add_0_r. repeat split; constructor. }
  cbn [stream_loop token_contents tokens_are_text forallb]. unfold token_of.
  destruct (event ev) as [ty|]; [|apply IH].
  destruct (data_chunk ev) as [[[[|c cs]|[|b bs]]|]|]; try apply IH;
    (destruct (PyStr.eqb ty (py "on_chat_model_stream")); [|apply IH]);
    try apply IH.
  - unfold bind, uuid4, timestamp_now, ret.
    match goal with
    | |- context [stream_loop ?a ?b ?c ?d ?e ?f ?g] =>
        destruct (IH f g) as (deltas & Hlines & Hshape & Hids & Hdraws & Hfailed);
        destruct (stream_loop a b c d e f g) as [[[full lines] failed] w1]
    end.
    cbn [fst snd uuid_draws andb] in *.
    eexists (_ :: deltas). split; [|split; [|split; [|split]]].
    + cbn [map]. rewrite Hlines. reflexivity.
    + constructor; [split; reflexivity | exact Hshape].
    + cbn [map List.length seq chunk_id]. rewrite Nat.add_0_r. f_equal.
      rewrite Hids, <- seq_shift, map_map.
      apply map_ext. intros k. now rewrite Nat.add_succ_comm.
    + rewrite Hdraws. cbn [List.length]. lia.
    + exact Hfailed.
  - exists []. cbn. rewrite Nat.add_0_r. repeat split; constructor.
Qed.

(** X10.  When the event stream raises, the error is reported in band: the
    tokens that arrived before the failure are still delivered, in
    order, and are followed by one error line; no chunk with finish
    reason [stop] and no [DONE] line is sent after them.  The error line
    carries the text of the stream's exception when the content of every
    token is a string; a token with a list as content makes the adapter
    fail first, and the line then carries the text of that [TypeError]. *)
Theorem stream_error_in_band (request : ChatCompletionRequest) (graph : Graph)
    (thread_id : pystr) (user : User) (w : World) (events : list Event) (e : pystr) :
  astream_events graph
    {| input_messages := _convert_messages_to_langgraph_format (messages request) |}
    {| config_thread_id := thread_id; config_user_id := identity user |}
    = (events, Some e) ->
  exists deltas,
    fst (_stream_chat_completion uuid_source clock model_dump_json
           request graph thread_id user w)
      = map (sse_line model_dump_json) deltas
        ++ [py "data: {'error': {'message': '"
            ++ (if tokens_are_text events then e else str_plus_list_error)
            ++ py "'}}" ++ [10%N; 10%N]]
    /\ Forall2
         (fun chunk token =>
            chunk_object chunk = py "chat.completion.chunk"
            /\ chunk_choices chunk =
                 [ {| stream_index := 0;
                      delta := {| role := py "assistant"; content := token |};
                      stream_finish_reason := None |} ])
         deltas (token_contents events).
Proof.
  intros Hevents.
  unfold _stream_chat_completion, bind, log_call, ret.
  cbn -[py _convert_messages_to_langgraph_format stream_loop uuid4 timestamp_now
        str_plus_list_error].
  rewrite Hevents.
  match goal with
  | |- context [stream_loop ?a ?b ?c ?d ?e ?f ?g] =>
      destruct (stream_loop_chunks d e f g)
        as (deltas & Hlines & Hshape & _ & _ & Hfailed);
      destruct (stream_loop a b c d e f g) as [[[full lines] failed] w1]
  end.
  cbn [fst snd] in *. exists deltas. rewrite Hlines.
  split; [|exact Hshape].
  rewrite Hfailed. destruct (tokens_are_text events); reflexivity.
Qed.

(** X11.  Every chunk of a stream has an identifier of its own: the chunks are
    numbered by the identifiers drawn one after the other, and when the
    identifier source never repeats, no two chunks of the stream, the
    closing one included, share an [id].  When the content of every token
    is a string there is one chunk per token and the closing chunk, and
    the [DONE] line follows; otherwise the chunks end with the last
    string token before the list, and the error line follows. *)
Theorem stream_chunk_ids_distinct (request : ChatCompletionRequest) (graph : Graph)
    (thread_id : pystr) (user : User) (w : World) (events : list Event) :
  (forall n m, uuid_source n = uuid_source m -> n = m) ->
  astream_events graph
    {| input_messages := _convert_messages_to_langgraph_format (messages request) |}
    {| config_thread_id := thread_id; config_user_id := identity user |}
    = (events, None) ->
  exists chunks,
    fst (_stream_chat_completion uuid_source clock model_dump_json
           request graph thread_id user w)
      = map (sse_line model_dump_json) chunks
        ++ [if tokens_are_text events
            then py "data: [DONE]" ++ [10%N; 10%N]
            else py "data: {'error': {'message': '" ++ str_plus_list_error
                 ++ py "'}}" ++ [10%N; 10%N]]
    /\ List.length chunks
         = (if tokens_are_text events
            then S (List.length (token_contents events))
            else List.length (token_contents events))
    /\ map chunk_id chunks
         = map (fun k => py "chatcmpl-" ++ uuid_source (uuid_draws w + k))
             (seq 0 (List.length chunks))
    /\ NoDup (map chunk_id chunks).
Proof.
  intros Hinj Hevents.
  assert (Hdistinct : forall n,
    NoDup (map (fun k => py "chatcmpl-" ++ uuid_source (uuid_draws w + k)) (seq 0 n))).
  { intros n. apply NoDup_map_on_seq; [|apply seq_NoDup].
    intros a b E. apply app_inv_head in E. apply Hinj in E. lia. }
  unfold _stream_chat_completion, bind, log_call, ret.
  cbn -[py _convert_messages_to_langgraph_format stream_loop uuid4 timestamp_now
        str_plus_list_error].
  rewrite Hevents.
  match goal with
  | |- context [stream_loop ?a ?b ?c ?d ?e ?f ?g] =>
      destruct (stream_loop_chunks d e f g)
        as (deltas & Hlines & Hshape & Hids & Hdraws & Hfailed);
      destruct (stream_loop a b c d e f g) as [[[full lines] failed] w1]
  end.
  cbn [fst snd uuid_draws] in *.
  apply Forall2_length in Hshape.
  rewrite Hfailed. destruct (tokens_are_text events).
  - unfold uuid4, timestamp_now. cbn -[py].
    eexists (deltas ++ [_]).
    assert (Hmap : map chunk_id (deltas ++
        [ {| chunk_id := py "chatcmpl-" ++ uuid_source (uuid_draws w1);
             chunk_object := py "chat.completion.chunk";
             chunk_created := clock (clock_reads w1);
             chunk_model := model request;
             chunk_choices :=
               [ {| stream_index := 0;
                    delta := {| role := py "assistant"; content := [] |};
                    stream_finish_reason := Some (py "stop") |} ] |} ])
      = map (fun k => py "chatcmpl-" ++ uuid_source (uuid_draws w + k))
          (seq 0 (S (List.length (token_contents events))))).
    { rewrite map_app, Hids, seq_S, map_app. cbn [map chunk_id].
      now rewrite Hdraws. }
    assert (Hlen : List.length (deltas ++
        [ {| chunk_id := py "chatcmpl-" ++ uuid_source (uuid_draws w1);
             chunk_object := py "chat.completion.chunk";
             chunk_created := clock (clock_reads w1);
             chunk_model := model request;
             chunk_choices :=
               [ {| stream_index := 0;
                    delta := {| role := py "assistant"; content := [] |};
                    stream_finish_reason := Some (py "stop") |} ] |} ])
      = S (List.length (token_contents events))).
    { rewrite length_app, Hshape. cbn [List.length]. lia. }
    split; [|split; [|split]].
    + rewrite Hlines, map_app, <- app_assoc. reflexivity.
    + exact Hlen.
    + rewrite Hlen. exact Hmap.
    + rewrite Hmap. apply Hdistinct.
  - cbn -[py str_plus_list_error]. exists deltas.
    split; [|split; [|split]].
    + rewrite Hlines. reflexivity.
    + exact Hshape.
    + rewrite Hshape. exact Hids.
    + rewrite Hids. apply Hdistinct.
Qed.

Lemma stream_ends_with_done_or_error (request : ChatCompletionRequest)
    (graph : Graph) (thread_id : pystr) (user : User) (w : World) :
  exists lines last,
    fst (_stream_chat_completion uuid_source clock model_dump_json
           request graph thread_id user w) = lines ++ [last]
    /\ (last = done_line \/ exists e, last = error_line e).
Proof.
  unfold _stream_chat_completion, bind, log_call, ret.
  cbn -[py _convert_messages_to_langgraph_format stream_loop uuid4 timestamp_now
        done_line error_line].
  match goal with
  | |- context [astream_events ?g ?i ?c] =>
      destruct (astream_events g i c) as [events [e|]]
  end;
  match goal with
  | |- context [stream_loop ?a ?b ?c ?d ?e ?f ?g] =>
      destruct (stream_loop a b c d e f g) as [[[full lines] [failed|]] w1]
  end; cbn [fst snd];
  try (eexists; eexists; split; [reflexivity|]; right; eexists; reflexivity).
  - unfold uuid4, timestamp_now. cbn -[py done_line].
    exists (lines ++ [sse_line model_dump_json
      {| chunk_id := py "chatcmpl-" ++ uuid_source (uuid_draws w1);
         chunk_object := py "chat.completion.chunk";
         chunk_created := clock (clock_reads w1);
         chunk_model := model request;
         chunk_choices :=
           [ {| stream_index := 0;
                delta := {| role := py "assistant"; content := [] |};
                stream_finish_reason := Some (py "stop") |} ] |}]), done_line.
    split; [now rewrite <- app_assoc | now left].
Qed.

(** X12.  A streaming request for a known graph is never answered by an HTTP
    exception, whatever the graph does: the reply is an event stream of
    media type [text/event-stream] whose body is not empty and ends
    either with the [DONE] line or with an error line. *)
Theorem streamed_request_never_raises (request : ChatCompletionRequest) (user : User)
    (w : World) (graph : Graph) :
  get_graph (model request) = Some graph ->
  stream request = true ->
  exists lines last,
    fst (completion request user w)
      = inr (Streaming
          {| body := lines ++ [last];
             media_type := py "text/event-stream";
             headers := [ (py "Cache-Control", py "no-cache");
                          (py "Connection", py "keep-alive");
                          (py "X-Accel-Buffering", py "no") ] |})
    /\ (last = py "data: [DONE]" ++ [10%N; 10%N]
        \/ exists e, last = py "data: {'error': {'message': '" ++ e ++ py "'}}"
                             ++ [10%N; 10%N]).
Proof.
  intros Hgraph Hstream.
  destruct (AdapterFacts.streaming_request_body get_graph uuid_source clock
              model_dump_json str_messages validation_error request user w
              Hgraph Hstream)
    as (tid & w1 & Hbody).
  destruct (stream_ends_with_done_or_error request graph tid user w1)
    as (lines & last & Hlines & Hlast).
  exists lines, last. rewrite Hbody, Hlines. split; [reflexivity | exact Hlast].
Qed.

Lemma stream_loop_reads_model (r1 r2 : ChatCompletionRequest) (events : list Event)
    (full_response : pystr) (w : World) :
  model r1 = model r2 ->
  stream_loop uuid_source clock model_dump_json r1 events full_response w
  = stream_loop uuid_source clock model_dump_json r2 events full_response w.
Proof.
  intros Hmodel. revert full_response w.
  induction events as [|ev rest IH]; intros full_response w; [reflexivity|].
  cbn [stream_loop].
  destruct (event ev) as [ty|]; [|apply IH].
  destruct (data_chunk ev) as [[[[|c cs]|[|b bs]]|]|]; try apply IH;
    (destruct (PyStr.eqb ty (py "on_chat_model_stream")); [|apply IH]);
    try apply IH; try reflexivity.
  unfold bind, uuid4, timestamp_now, ret. rewrite IH, Hmodel. reflexivity.
Qed.

(** X13.  Of a request, only [model], [messages], [stream] and [thread_id] are
    read: two requests that agree on these get the same answer and leave
    the same world, whatever their [user] and [max_tokens].  The sampling
    limit is not passed to the graph, and the [user] field is not the
    identity the graph is called under. *)
Theorem unread_request_fields (r1 r2 : ChatCompletionRequest) (user : User)
    (w : World) :
  model r1 = model r2 ->
  messages r1 = messages r2 ->
  stream r1 = stream r2 ->
  thread_id r1 = thread_id r2 ->
  completion r1 user w = completion r2 user w.
Proof.
  intros Hmodel Hmessages Hstream Hthread.
  unfold create_chat_completion, _get_graph_or_404, bind, ret.
  rewrite Hmodel, Hstream, Hthread.
  destruct (get_graph (model r2)) as [graph|]; [|reflexivity].
  destruct (stream r2).
  - destruct (thread_id r2) as [[|c cs]|];
      unfold _stream_chat_completion, bind, log_call, uuid4, timestamp_now, ret;
      cbn -[py _convert_messages_to_langgraph_format stream_loop];
      rewrite Hmessages, Hmodel;
      match goal with
      | |- context [astream_events ?g ?i ?c] =>
          destruct (astream_events g i c) as [events raised]
      end;
      match goal with
      | |- context [stream_loop ?a ?b ?c r1 ?e ?f ?g] =>
          rewrite (@stream_loop_reads_model r1 r2 e f g Hmodel)
      end; reflexivity.
  - destruct (thread_id r2) as [[|c cs]|];
      unfold _chat_completion_non_streaming, bind, log_call, uuid4, timestamp_now, ret;
      cbn -[py _convert_messages_to_langgraph_format];
      rewrite Hmessages, Hmodel; reflexivity.
Qed.

(** X14.  A request for a known graph causes exactly one call to that graph:
    [astream_events] when [stream] is set and [ainvoke] otherwise, on the
    converted messages of the request, under the identity of the
    authenticated user. *)
Theorem graph_called_once (request : ChatCompletionRequest) (user : User)
    (w : World) (graph : Graph) :
  get_graph (model request) = Some graph ->
  exists thread,
    graph_calls (snd (completion request user w))
    = graph_calls w
      ++ [ {| call_kind := if stream request then call_astream_events else call_ainvoke;
              call_input :=
                {| input_messages :=
                     _convert_messages_to_langgraph_format (messages request) |};
              call_config :=
                {| config_thread_id := thread;
                   config_user_id := identity user |} |} ].
Proof.
  intros Hgraph.
  unfold create_chat_completion, _get_graph_or_404, bind, ret.
  rewrite Hgraph.
  destruct (stream request).
  - destruct (thread_id request) as [[|c cs]|];
      unfold _stream_chat_completion, bind, log_call, uuid4, timestamp_now, ret;
      cbn -[py _convert_messages_to_langgraph_format stream_loop];
      match goal with
      | |- context [astream_events ?g ?i ?c] =>
          destruct (astream_events g i c) as [events raised]
      end;
      match goal with
      | |- context [stream_loop ?a ?b ?c ?d ?e ?f ?g] =>
          pose proof (AdapterFacts.stream_loop_calls a b c d e f g) as Hloop;
          destruct (stream_loop a b c d e f g) as [[[full lines] failed] w1]
      end;
      cbn in Hloop;
      destruct failed; destruct raised; cbn -[py]; rewrite Hloop;
      eexists; reflexivity.
  - destruct (thread_id request) as [[|c cs]|];
      unfold _chat_completion_non_streaming, bind, log_call, uuid4, timestamp_now, ret;
      cbn -[py _convert_messages_to_langgraph_format];
      match goal with |- context [ainvoke ?g ?i ?c] => destruct (ainvoke g i c) end;
      cbn -[py];
      try match goal with
          | |- context [match ?c with Text _ => _ | Blocks _ => _ end] => destruct c
          end;
      cbn -[py]; eexists; reflexivity.
Qed.

Lemma model_objects_spec (graphs : list pystr) (w : World) :
  map model_id (fst (model_objects clock graphs w)) = graphs
  /\ Forall (fun m => model_object m = py "model" /\ owned_by m = py "aegra")
       (fst (model_objects clock graphs w))
  /\ map model_created (fst (model_objects clock graphs w))
       = map (fun k => clock (clock_reads w + k)) (seq 0 (List.length graphs))
  /\ graph_calls (snd (model_objects clock graphs w)) = graph_calls w
  /\ uuid_draws (snd (model_objects clock graphs w)) = uuid_draws w.
Proof.
  revert w. induction graphs as [|graph_id rest IH]; intros w.
  { cbn. repeat split; constructor. }
  cbn [model_objects]. unfold bind, timestamp_now, ret.
  match goal with
  | |- context [model_objects clock rest ?w1] =>
      destruct (IH w1) as (Hids & Hfields & Hcreated & Hcalls & Hdraws);
      destruct (model_objects clock rest w1) as [models w2]
  end.
  cbn [fst snd map model_id model_created graph_calls uuid_draws clock_reads
       List.length seq] in *.
  split; [now rewrite Hids|]. split; [constructor; [split; reflexivity | exact Hfields]|].
  split; [|split; assumption].
  rewrite Nat.add_0_r. f_equal.
  rewrite Hcreated, <- seq_shift, map_map.
  apply map_ext. intros k. now rewrite Nat.add_succ_comm.
Qed.

(** X15.  [list_models] lists every registered graph id once, in the order of
    the registry, as a model object with [object] [model] owned by
    [aegra], inside a response with [object] [list]; it calls no graph
    and draws no identifier. *)
Theorem list_models_lists_graph_ids (w : World) :
  list_object (fst (list_models clock list_graphs w)) = py "list"
  /\ map model_id (data (fst (list_models clock list_graphs w))) = list_graphs
  /\ Forall (fun m => model_object m = py "model" /\ owned_by m = py "aegra")
       (data (fst (list_models clock list_graphs w)))
  /\ graph_calls (snd (list_models clock list_graphs w)) = graph_calls w
  /\ uuid_draws (snd (list_models clock list_graphs w)) = uuid_draws w.
Proof.
  destruct (model_objects_spec list_graphs w) as (Hids & Hfields & _ & Hcalls & Hdraws).
  unfold list_models, bind, ret.
  destruct (model_objects clock list_graphs w) as [models w1].
  cbn [fst snd data list_object] in *.
  repeat split; assumption.
Qed.

(** X16.  The two model endpoints agree: a model that [list_models] lists and
    whose id the registry resolves is returned by [get_model] with the
    same id, [object] and owner. *)
Theorem listed_model_can_be_fetched (w w' : World) (m : ModelObject) :
  In m (data (fst (list_models clock list_graphs w))) ->
  get_graph (model_id m) <> None ->
  exists fetched,
    fst (get_model get_graph clock (model_id m) w') = inr fetched
    /\ model_id fetched = model_id m
    /\ model_object fetched = model_object m
    /\ owned_by fetched = owned_by m.
Proof.
  intros Hin Hknown.
  destruct (model_objects_spec list_graphs w) as (_ & Hfields & _).
  unfold list_models, bind, ret in Hin.
  destruct (model_objects clock list_graphs w) as [models w1].
  cbn [fst data] in Hin, Hfields.
  rewrite Forall_forall in Hfields. destruct (Hfields m Hin) as [Hobject Howner].
  unfold get_model, _get_graph_or_404, bind, ret.
  destruct (get_graph (model_id m)) as [graph|]; [|contradiction].
  cbn -[py]. eexists. split; [reflexivity|].
  cbn -[py]. now rewrite Hobject, Howner.
Qed.

End Endpoints.

(** *** The theorems at the scenario's collaborators *)

Local Abbreviation scenario_completion :=
  (create_chat_completion Scenario.registry Scenario.uuids Scenario.ticks
     Scenario.dump_content Scenario.contents_of Scenario.not_a_string).

Lemma unary_uuids_injective (n m : nat) :
  Scenario.unary_uuids n = Scenario.unary_uuids m -> n = m.
Proof.
  unfold Scenario.unary_uuids. intros E.
  apply (f_equal (@List.length N)) in E. now rewrite !repeat_length in E.
Qed.

Lemma non_streaming_outcome_witness :
  exists response,
    fst (scenario_completion
           (Scenario.ask "uk_housing" "My boiler keeps cutting out" false None)
           Scenario.tenant Scenario.world0) = inr (Json response)
    /\ choices response =
         [ {| index := 0;
              message := {| role := py "assistant";
                            content := py "Bleed the radiators." |};
              finish_reason := py "stop" |} ].
Proof.
  exact (@non_streaming_outcome Scenario.registry Scenario.uuids Scenario.ticks
           Scenario.dump_content Scenario.contents_of Scenario.not_a_string
           (Scenario.ask "uk_housing" "My boiler keeps cutting out" false None)
           Scenario.tenant Scenario.world0 Scenario.answering_graph
           eq_refl eq_refl).
Defined.

(** A final state whose last message has a list as content: the graph
    raised nothing, the request is answered with 500. *)
Example list_content_is_500 :
  fst (create_chat_completion (fun _ => Some Scenario.blocks_graph)
         Scenario.uuids Scenario.ticks Scenario.dump_content Scenario.contents_of
         Scenario.not_a_string
         (Scenario.ask "blocks" "My boiler keeps cutting out" false None)
         Scenario.tenant Scenario.world0)
  = inl {| status_code := 500;
           detail := py "Error processing request: Input should be a valid string" |}.
Proof. reflexivity. Qed.

Lemma stream_error_in_band_witness :
  exists deltas,
    fst (_stream_chat_completion Scenario.uuids Scenario.ticks Scenario.dump_content
           (Scenario.ask "breaking" "My boiler keeps cutting out" true None)
           Scenario.breaking_graph (py "thread-1") Scenario.tenant Scenario.world0)
      = map (sse_line Scenario.dump_content) deltas
        ++ [py "data: {'error': {'message': 'provider unavailable'}}" ++ [10%N; 10%N]]
    /\ List.length deltas = 1.
Proof.
  destruct (@stream_error_in_band Scenario.uuids Scenario.ticks Scenario.dump_content
              (Scenario.ask "breaking" "My boiler keeps cutting out" true None)
              Scenario.breaking_graph (py "thread-1") Scenario.tenant
              Scenario.world0 _ _ eq_refl)
    as (deltas & Hlines & Hshape).
  exists deltas. split; [exact Hlines|].
  apply Forall2_length in Hshape. exact Hshape.
Defined.

Lemma stream_chunk_ids_distinct_witness :
  exists chunks,
    fst (_stream_chat_completion Scenario.unary_uuids Scenario.ticks
           Scenario.dump_content
           (Scenario.ask "uk_housing" "My boiler keeps cutting out" true None)
           Scenario.answering_graph (py "thread-1") Scenario.tenant Scenario.world0)
      = map (sse_line Scenario.dump_content) chunks ++ [py "data: [DONE]" ++ [10%N; 10%N]]
    /\ List.length chunks = 3
    /\ NoDup (map chunk_id chunks).
Proof.
  destruct (@stream_chunk_ids_distinct Scenario.unary_uuids Scenario.ticks
              Scenario.dump_content
              (Scenario.ask "uk_housing" "My boiler keeps cutting out" true None)
              Scenario.answering_graph (py "thread-1") Scenario.tenant
              Scenario.world0 _ unary_uuids_injective eq_refl)
    as (chunks & Hlines & Hlength & _ & Hdistinct).
  change (tokens_are_text _) with true in Hlines, Hlength. cbv iota in Hlines, Hlength.
  exists chunks. split; [exact Hlines|]. split; [exact Hlength | exact Hdistinct].
Defined.

Lemma streamed_request_never_raises_witness :
  exists lines last,
    fst (create_chat_completion
           (fun _ => Some Scenario.breaking_graph) Scenario.uuids Scenario.ticks
           Scenario.dump_content Scenario.contents_of Scenario.not_a_string
           (Scenario.ask "breaking" "My boiler keeps cutting out" true None)
           Scenario.tenant Scenario.world0)
      = inr (Streaming
          {| body := lines ++ [last];
             media_type := py "text/event-stream";
             headers := [ (py "Cache-Control", py "no-cache");
                          (py "Connection", py "keep-alive");
                          (py "X-Accel-Buffering", py "no") ] |})
    /\ (last = py "data: [DONE]" ++ [10%N; 10%N]
        \/ exists e, last = py "data: {'error': {'message': '" ++ e ++ py "'}}"
                             ++ [10%N; 10%N]).
Proof.
  exact (@streamed_request_never_raises (fun _ => Some Scenario.breaking_graph)
           Scenario.uuids Scenario.ticks Scenario.dump_content Scenario.contents_of
           Scenario.not_a_string
           (Scenario.ask "breaking" "My boiler keeps cutting out" true None)
           Scenario.tenant Scenario.world0 Scenario.breaking_graph eq_refl eq_refl).
Defined.

Lemma unread_request_fields_witness :
  scenario_completion
    {| model := py "uk_housing";
       messages := [ {| role := py "user"; content := py "Hello" |} ];
       max_tokens := Some 16%Z; stream := false;
       thread_id := Some (py "thread-9"); user := Some (py "alice") |}
    Scenario.tenant Scenario.world0
  = scenario_completion
      {| model := py "uk_housing";
         messages := [ {| role := py "user"; content := py "Hello" |} ];
         max_tokens := None; stream := false;
         thread_id := Some (py "thread-9"); user := Some (py "bob") |}
      Scenario.tenant Scenario.world0.
Proof.
  exact (@unread_request_fields Scenario.registry Scenario.uuids Scenario.ticks
           Scenario.dump_content Scenario.contents_of Scenario.not_a_string
           {| model := py "uk_housing";
              messages := [ {| role := py "user"; content := py "Hello" |} ];
              max_tokens := Some 16%Z; stream := false;
              thread_id := Some (py "thread-9"); user := Some (py "alice") |}
           {| model := py "uk_housing";
              messages := [ {| role := py "user"; content := py "Hello" |} ];
              max_tokens := None; stream := false;
              thread_id := Some (py "thread-9"); user := Some (py "bob") |}
           Scenario.tenant Scenario.world0 eq_refl eq_refl eq_refl eq_refl).
Defined.

Lemma graph_called_once_witness :
  exists thread,
    graph_calls
      (snd (scenario_completion
              (Scenario.ask "uk_housing" "My boiler keeps cutting out" true None)
              Scenario.tenant Scenario.world0))
    = [ {| call_kind := call_astream_events;
           call_input :=
             {| input_messages :=
                  [ SystemMessage (Text (py "Be brief."));
                    HumanMessage (Text (py "My boiler keeps cutting out")) ] |};
           call_config :=
             {| config_thread_id := thread;
                config_user_id := py "tenant-7" |} |} ].
Proof.
  exact (@graph_called_once Scenario.registry Scenario.uuids Scenario.ticks
           Scenario.dump_content Scenario.contents_of Scenario.not_a_string
           (Scenario.ask "uk_housing" "My boiler keeps cutting out" true None)
           Scenario.tenant Scenario.world0 Scenario.answering_graph eq_refl).
Defined.

Lemma listed_model_can_be_fetched_witness :
  exists fetched,
    fst (get_model Scenario.registry Scenario.ticks (py "uk_housing") Scenario.world0)
      = inr fetched
    /\ model_id fetched = py "uk_housing"
    /\ model_object fetched = py "model"
    /\ owned_by fetched = py "aegra".
Proof.
  assert (Hknown : Scenario.registry (py "uk_housing") <> None) by discriminate.
  exact (@listed_model_can_be_fetched Scenario.registry Scenario.ticks
           [py "uk_housing"; py "silent"] Scenario.world0 Scenario.world0
           {| model_id := py "uk_housing"; model_object := py "model";
              model_created := 1700000000%Z; owned_by := py "aegra" |}
           (or_introl eq_refl) Hknown).
Defined.

End EndpointFacts.

(* ====================================================================== *)
(** * Properties of the stub tools *)
(* ====================================================================== *)

Module ToolFacts.
Import HousingTools.

(** X17.  The stub tools echo their arguments without loss: each tool of one
    argument gives different results for different arguments, and two
    equal results of [schedule_engineer] agree on the issue type exactly
    when they agree on the urgency. *)
Theorem stub_tools_keep_their_arguments :
  (forall q q', search_housing_knowledge q = search_housing_knowledge q' -> q = q')
  /\ (forall b b', get_boiler_info b = get_boiler_info b' -> b = b')
  /\ (forall i i', get_repair_guidance i = get_repair_guidance i' -> i = i')
  /\ (forall r r', escalate_to_human r = escalate_to_human r' -> r = r')
  /\ (forall i u i' u',
        schedule_engineer i u = schedule_engineer i' u' -> (i = i' <-> u = u')).
Proof.
  split; [|split; [|split; [|split]]].
  - intros q q' E. now apply app_inv_head in E.
  - intros b b' E. now apply app_inv_head in E.
  - intros i i' E. now apply app_inv_head in E.
  - intros r r' E. unfold escalate_to_human in E.
    rewrite !app_assoc in E. now apply app_inv_head in E.
  - intros i u i' u' E. unfold schedule_engineer in E. split; intros ->.
    + apply app_inv_head, app_inv_head, app_inv_head in E.
      now apply app_inv_tail in E.
    + apply app_inv_head in E. rewrite !app_assoc in E.
      now apply app_inv_tail, app_inv_tail, app_inv_tail in E.
Qed.

Example schedule_engineer_renders :
  schedule_engineer (py "heating") (py "high")
  = py "Engineer scheduled for heating (urgency: high)".
Proof. reflexivity. Qed.

(** The tools are bound to the agent model, but the graph has no node
    that runs them: a reply that asks for a tool ends the run like any
    other, with that reply as the last message. *)
Example run_with_tool_call :
  HousingGraph.invoke Scenario.appending 3
    (HousingGraph.graph Scenario.ascii_only_lower
       (Scenario.replying (py "heating"))
       (fun _ => Some (HousingGraph.AIMessage (HousingGraph.Text (py ""))
          [ {| HousingGraph.tool_name := py "get_boiler_info";
               HousingGraph.tool_args := [(py "boiler_brand", py "Baxi")] |} ])))
    (Scenario.user_says "My Baxi boiler keeps cutting out")
  = HousingGraph.Finished [py "detect_intent"; py "heating_agent"]
      {| HousingGraph.d_messages :=
           Some [ HousingGraph.HumanMessage
                    (HousingGraph.Text (py "My Baxi boiler keeps cutting out"));
                  HousingGraph.AIMessage (HousingGraph.Text (py ""))
                    [ {| HousingGraph.tool_name := py "get_boiler_info";
                         HousingGraph.tool_args := [(py "boiler_brand", py "Baxi")] |} ] ];
         HousingGraph.d_issue_type := Some (Some (py "heating"));
         HousingGraph.d_current_agent := None |}.
Proof. reflexivity. Qed.

End ToolFacts.
